(** * Expense tracker: the category / payment-method normalisation pipeline

    A shallow embedding of [src/analysis/nlp.py] and of [add_expense_db] from
    [src/storage/database.py], together with the part of Python's [difflib]
    that [nlp.py] calls ([SequenceMatcher(None, a, b).ratio()]).

    Conventions.
    - A Python [str] is a Rocq [string]; a character is the code point of the
      same number (code points below 256, the Latin-1 range, on which
      [str.lower] and [str.strip] are the functions written out below).
    - [ratio()] is the double [2.0 * matches / length]; it is kept here as the
      exact fraction [2 * matches / length] in [Q], and the literal [0.8] as
      [8 / 10].  Module [Double] holds the same matcher on IEEE 754 binary64
      numbers, and [DoubleFacts.matchers_double] shows that the two return
      the same label on every input of up to 38 characters.
    - The document store is an explicit list of records, threaded through
      [add_expense_db]; calls into the trained classifier are recorded in an
      explicit trace. *)

From Stdlib Require Import List String Ascii Arith Bool Lia ZArith QArith.
From Stdlib Require Import SpecFloat.
Import ListNotations.
Close Scope Q_scope.
Open Scope string_scope.
Open Scope list_scope.
Open Scope nat_scope.

(** ** Python string primitives used by [nlp.py] *)

Module PyStr.

(** [str.lower] on one character: A-Z and the Latin-1 capitals (U+00C0 to
    U+00DE, the multiplication sign U+00D7 apart) move up by 32. *)
Definition lower_char (c : ascii) : ascii :=
  let n := nat_of_ascii c in
  if ((65 <=? n) && (n <=? 90)) || ((192 <=? n) && (n <=? 222) && negb (n =? 215))
  then ascii_of_nat (n + 32)
  else c.

Fixpoint lower (s : string) : string :=
  match s with
  | EmptyString => EmptyString
  | String c s' => String (lower_char c) (lower s')
  end.

(** [str.isspace] on one character: TAB, LF, VT, FF, CR, the separators
    U+001C to U+001F, space, NEL (U+0085) and no-break space (U+00A0). *)
Definition isspace (c : ascii) : bool :=
  let n := nat_of_ascii c in
  ((9 <=? n) && (n <=? 13)) || ((28 <=? n) && (n <=? 32)) || (n =? 133) || (n =? 160).

Fixpoint lstrip (s : string) : string :=
  match s with
  | EmptyString => EmptyString
  | String c s' => if isspace c then lstrip s' else s
  end.

(** Drops trailing white space: a character is kept when it is not a space
    or when something is kept after it. *)
Fixpoint rstrip (s : string) : string :=
  match s with
  | EmptyString => EmptyString
  | String c s' =>
      match rstrip s' with
      | EmptyString => if isspace c then EmptyString else String c EmptyString
      | r => String c r
      end
  end.

(** [s.strip()] with no argument. *)
Definition strip (s : string) : string := rstrip (lstrip s).

End PyStr.

Module PyStrShape.

(** A string that does not begin with white space. *)
Definition clean_start (s : string) : Prop :=
  match s with
  | EmptyString => True
  | String c _ => PyStr.isspace c = false
  end.

End PyStrShape.

(** ** [difflib.SequenceMatcher] as [nlp.py] uses it

    [SequenceMatcher(None, a, b)]: no junk predicate, [autojunk] left at its
    default [True].  Sequences are lists of characters, positions are
    naturals. *)

Module Difflib.

Definition Match : Type := (nat * nat * nat)%type.

(** [b2j.setdefault(elt, []).append(i)] on an insertion-ordered dictionary. *)
Fixpoint setdefault_append (elt : ascii) (i : nat) (d : list (ascii * list nat))
  : list (ascii * list nat) :=
  match d with
  | [] => [(elt, [i])]
  | (c, idxs) :: d' =>
      if Ascii.eqb c elt then (c, idxs ++ [i]) :: d'
      else (c, idxs) :: setdefault_append elt i d'
  end.

Fixpoint enumerate_from {A} (i : nat) (l : list A) : list (nat * A) :=
  match l with
  | [] => []
  | x :: l' => (i, x) :: enumerate_from (S i) l'
  end.

(** [__chain_b]: the positions of every character of [b]; with no junk
    predicate [bjunk] stays empty, and when [b] has 200 characters or more
    the characters occurring more than [n // 100 + 1] times are purged. *)
Definition chain_b (b : list ascii) : list (ascii * list nat) :=
  let b2j :=
    fold_left (fun d ie => setdefault_append (snd ie) (fst ie) d)
              (enumerate_from 0 b) [] in
  let n := List.length b in
  if 200 <=? n then
    let ntest := n / 100 + 1 in
    filter (fun kv => negb (ntest <? List.length (snd kv))) b2j
  else b2j.

(** [bjunk.__contains__]: the junk set is empty. *)
Definition isbjunk (c : ascii) : bool := false.

(** [b2j.get(c, nothing)]. *)
Fixpoint b2j_get (b2j : list (ascii * list nat)) (c : ascii) : list nat :=
  match b2j with
  | [] => []
  | (c', idxs) :: d => if Ascii.eqb c' c then idxs else b2j_get d c
  end.

(** [j2len.get(j, 0)]; the dictionary holds one entry per key. *)
Fixpoint j2len_get (j2len : list (nat * nat)) (j : nat) : nat :=
  match j2len with
  | [] => 0
  | (j', k) :: d => if j' =? j then k else j2len_get d j
  end.

(** [j2len.get(j-1, 0)]: at [j = 0] the key is [-1], which is never there. *)
Definition j2len_get_pred (j2len : list (nat * nat)) (j : nat) : nat :=
  match j with
  | O => 0
  | S j' => j2len_get j2len j'
  end.

(** The inner [for j in b2j.get(a[i], nothing)] of [find_longest_match],
    with its [continue] below [blo] and its [break] at [bhi].  The state is
    [newj2len] and [(besti, bestj, bestsize)]. *)
Fixpoint scan_row (i blo bhi : nat) (j2len : list (nat * nat)) (js : list nat)
    (newj2len : list (nat * nat)) (best : Match) : list (nat * nat) * Match :=
  match js with
  | [] => (newj2len, best)
  | j :: js' =>
      if j <? blo then scan_row i blo bhi j2len js' newj2len best
      else if bhi <=? j then (newj2len, best)
      else
        let k := j2len_get_pred j2len j + 1 in
        let newj2len' := (j, k) :: newj2len in
        let '(_, _, bestsize) := best in
        let best' := if bestsize <? k then (i + 1 - k, j + 1 - k, k) else best in
        scan_row i blo bhi j2len js' newj2len' best'
  end.

(** The outer [for i in range(alo, ahi)]. *)
Fixpoint scan_rows (a : list ascii) (b2j : list (ascii * list nat)) (blo bhi : nat)
    (rows : list nat) (j2len : list (nat * nat)) (best : Match) : Match :=
  match rows with
  | [] => best
  | i :: rows' =>
      let '(newj2len, best') :=
        scan_row i blo bhi j2len (b2j_get b2j (nth i a Ascii.zero)) [] best in
      scan_rows a b2j blo bhi rows' newj2len best'
  end.

(** [while besti > alo and bestj > blo and (junk test on b[bestj-1]) and
    a[besti-1] == b[bestj-1]]: one more character on the left each turn.
    [want_junk] is [false] for the first pair of loops ([not isbjunk(..)])
    and [true] for the second. *)
Fixpoint extend_left (fuel : nat) (want_junk : bool) (a b : list ascii)
    (alo blo : nat) (m : Match) : Match :=
  let '(besti, bestj, bestsize) := m in
  match fuel with
  | O => m
  | S fuel' =>
      if (alo <? besti) && (blo <? bestj)
         && Bool.eqb (isbjunk (nth (bestj - 1) b Ascii.zero)) want_junk
         && Ascii.eqb (nth (besti - 1) a Ascii.zero) (nth (bestj - 1) b Ascii.zero)
      then extend_left fuel' want_junk a b alo blo (besti - 1, bestj - 1, bestsize + 1)
      else m
  end.

(** [while besti+bestsize < ahi and bestj+bestsize < bhi and (junk test) and
    a[besti+bestsize] == b[bestj+bestsize]]: one more on the right. *)
Fixpoint extend_right (fuel : nat) (want_junk : bool) (a b : list ascii)
    (ahi bhi : nat) (m : Match) : Match :=
  let '(besti, bestj, bestsize) := m in
  match fuel with
  | O => m
  | S fuel' =>
      if (besti + bestsize <? ahi) && (bestj + bestsize <? bhi)
         && Bool.eqb (isbjunk (nth (bestj + bestsize) b Ascii.zero)) want_junk
         && Ascii.eqb (nth (besti + bestsize) a Ascii.zero)
                      (nth (bestj + bestsize) b Ascii.zero)
      then extend_right fuel' want_junk a b ahi bhi (besti, bestj, bestsize + 1)
      else m
  end.

(** [find_longest_match(alo, ahi, blo, bhi)].  Each [while] loop moves
    [besti] down towards [alo] or [besti + bestsize] up towards [ahi], so
    [ahi] turns are enough for it. *)
Definition find_longest_match (a b : list ascii) (b2j : list (ascii * list nat))
    (alo ahi blo bhi : nat) : Match :=
  let m0 := scan_rows a b2j blo bhi (seq alo (ahi - alo)) [] (alo, blo, 0) in
  let m1 := extend_left ahi false a b alo blo m0 in
  let m2 := extend_right ahi false a b ahi bhi m1 in
  let m3 := extend_left ahi true a b alo blo m2 in
  extend_right ahi true a b ahi bhi m3.

(** The [while queue:] loop of [get_matching_blocks]; [queue.pop()] takes
    the entry appended last.  The result is the queue left over (empty once
    the loop has ended) and the blocks found. *)
Fixpoint matching_loop (fuel : nat) (a b : list ascii) (b2j : list (ascii * list nat))
    (queue : list (nat * nat * nat * nat)) (matching_blocks : list Match)
  : list (nat * nat * nat * nat) * list Match :=
  match fuel, queue with
  | O, _ => (queue, matching_blocks)
  | _, [] => ([], matching_blocks)
  | S fuel', (alo, ahi, blo, bhi) :: queue' =>
      let '(i, j, k) := find_longest_match a b b2j alo ahi blo bhi in
      if k =? 0 then matching_loop fuel' a b b2j queue' matching_blocks
      else
        let q1 := if (alo <? i) && (blo <? j) then (alo, i, blo, j) :: queue' else queue' in
        let q2 := if (i + k <? ahi) && (j + k <? bhi)
                  then (i + k, ahi, j + k, bhi) :: q1 else q1 in
        matching_loop fuel' a b b2j q2 (matching_blocks ++ [(i, j, k)])
  end.

(** Tuple order on blocks, as [list.sort] uses it. *)
Definition match_leb (x y : Match) : bool :=
  let '(i1, j1, k1) := x in
  let '(i2, j2, k2) := y in
  (i1 <? i2) || ((i1 =? i2) && ((j1 <? j2) || ((j1 =? j2) && (k1 <=? k2)))).

Fixpoint insert_sorted (x : Match) (l : list Match) : list Match :=
  match l with
  | [] => [x]
  | y :: l' => if match_leb x y then x :: l else y :: insert_sorted x l'
  end.

Definition sort_blocks (l : list Match) : list Match :=
  fold_right insert_sorted [] l.

(** The pass that merges adjacent blocks: the state is [(i1, j1, k1)] and
    [non_adjacent]. *)
Fixpoint collapse (blocks : list Match) (cur : Match) (non_adjacent : list Match)
  : Match * list Match :=
  match blocks with
  | [] => (cur, non_adjacent)
  | (i2, j2, k2) :: blocks' =>
      let '(i1, j1, k1) := cur in
      if (i1 + k1 =? i2) && (j1 + k1 =? j2)
      then collapse blocks' (i1, j1, k1 + k2) non_adjacent
      else
        let non_adjacent' :=
          if k1 =? 0 then non_adjacent else non_adjacent ++ [(i1, j1, k1)] in
        collapse blocks' (i2, j2, k2) non_adjacent'
  end.

(** The first pop is the whole of [a] against the whole of [b]; every later
    entry covers a part of [a] no other entry covers, so [2 * la + 1] pops
    empty the queue ([matching_loop_ends] below). *)
Definition loop_fuel (la : nat) : nat := 2 * la + 1.

(** [get_matching_blocks()], with its closing sentinel [(la, lb, 0)]. *)
Definition get_matching_blocks (a b : list ascii) : list Match :=
  let la := List.length a in
  let lb := List.length b in
  let '(_, matching_blocks) :=
    matching_loop (loop_fuel la) a b (chain_b b) [(0, la, 0, lb)] [] in
  let '((i1, j1, k1), non_adjacent) :=
    collapse (sort_blocks matching_blocks) (0, 0, 0) [] in
  let non_adjacent' :=
    if k1 =? 0 then non_adjacent else non_adjacent ++ [(i1, j1, k1)] in
  non_adjacent' ++ [(la, lb, 0)].

(** [sum(triple[-1] for triple in self.get_matching_blocks())]. *)
Definition matches (a b : list ascii) : nat :=
  fold_left (fun acc t => acc + snd t) (get_matching_blocks a b) 0.

(** [_calculate_ratio(matches, length)]: [2.0 * matches / length], and [1.0]
    when both sequences are empty. *)
Definition calculate_ratio (matches length : nat) : Q :=
  if length =? 0 then 1%Q
  else Qmake (Z.of_nat (2 * matches)) (Pos.of_nat length).

(** [SequenceMatcher(None, a, b).ratio()]. *)
Definition ratio (a b : string) : Q :=
  let a' := list_ascii_of_string a in
  let b' := list_ascii_of_string b in
  calculate_ratio (matches a' b') (List.length a' + List.length b').

(** *** Measures for the proof that the loop ends *)

(** A block lies inside the window [alo, ahi) of [a] it was searched in. *)
Definition within (alo ahi : nat) (m : Match) : Prop :=
  alo <= fst (fst m) /\ fst (fst m) + snd m <= ahi.

(** What is left to do for a queue: every entry costs one pop, and two more
    for each character of [a] in its window. *)
Definition weight (queue : list (nat * nat * nat * nat)) : nat :=
  fold_right (fun e w => 2 * (snd (fst (fst e)) - fst (fst (fst e))) + 1 + w) 0 queue.

Definition ordered (e : nat * nat * nat * nat) : Prop :=
  fst (fst (fst e)) <= snd (fst (fst e)).

(** The characters of [a] the blocks of a list cover, and the characters
    of [a] the windows of a queue still hold. *)
Definition total (blocks : list Match) : nat :=
  fold_right (fun t n => snd t + n) 0 blocks.

Definition span (queue : list (nat * nat * nat * nat)) : nat :=
  fold_right (fun e n => snd (fst (fst e)) - fst (fst (fst e)) + n) 0 queue.

End Difflib.


(** ** The document store

    The [expenses] collection of the [expense_tracker] database, as the list
    of the documents inserted so far, oldest first.  A document has the
    seven fields [add_expense_db] writes (the [_id] the store adds is not
    read by the code under study). *)

Module Store.

Record Expense : Type := mkExpense {
  date : string;
  amount : Q;
  category : string;
  original_category : string;
  description : string;
  payment_method : string;
  original_payment_method : string
}.

Definition Collection : Type := list Expense.

(** [expenses.insert_one(expense)]. *)
Definition insert_one (expenses : Collection) (expense : Expense) : Collection :=
  expenses ++ [expense].

End Store.

(** ** [src/analysis/nlp.py] *)

Module Nlp.

(** The two example tables.  A Python [dict] iterates in insertion order,
    so each is a list of [(general, examples)] entries in source order. *)
Definition CATEGORY_EXAMPLES : list (string * list string) :=
  [ ("Food", ["drink"; "lunch"; "dinner"; "groceries"; "food"]);
    ("Transport", ["bus"; "train"; "taxi"; "subway"]);
    ("Entertainment", ["movie"; "game"]);
    ("Utilities", ["mobile"; "internet"]);
    ("Miscellaneous", ["other"]) ].

Definition PAYMENT_EXAMPLES : list (string * list string) :=
  [ ("TD Debit", ["debit"; "td debit"]);
    ("Cash", ["cash"]);
    ("Credit Card", ["credit"; "visa"; "mastercard"]) ].

(** [x > y] on scores. *)
Definition Qgtb (x y : Q) : bool := negb (Qle_bool x y).

(** The literal [0.8]. *)
Definition threshold : Q := 8 # 10.

(** The body of the inner loop: [score = ratio(text, example)], and the
    best pair is replaced only [if score > best_score]. *)
Definition try_example (text general example : string) (best : Q * string)
  : Q * string :=
  let score := Difflib.ratio text example in
  if Qgtb score (fst best) then (score, general) else best.

(** [for general, examples in table.items(): for example in examples: ...],
    from [best_score = 0] and [best_category = "Miscellaneous"]. *)
Definition scan_examples (table : list (string * list string)) (text : string)
  : Q * string :=
  fold_left
    (fun best entry =>
       fold_left (fun best example => try_example text (fst entry) example best)
                 (snd entry) best)
    table (0%Q, "Miscellaneous").

Definition get_general_category_from_similarity (category : string) : string :=
  let category := PyStr.strip (PyStr.lower category) in
  let '(best_score, best_category) := scan_examples CATEGORY_EXAMPLES category in
  if Qgtb best_score threshold then best_category else "Miscellaneous".

Definition get_general_payment_method (payment_method : string) : string :=
  let payment_method := PyStr.strip (PyStr.lower payment_method) in
  let '(best_score, best_payment) := scan_examples PAYMENT_EXAMPLES payment_method in
  if Qgtb best_score threshold then best_payment else "Miscellaneous".

(** The body the two functions share word for word, over any table; each
    of them is this function at its own table
    ([NlpFacts.category_lookup], [NlpFacts.payment_lookup]). *)
Definition similarity_lookup (table : list (string * list string)) (raw : string)
  : string :=
  let text := PyStr.strip (PyStr.lower raw) in
  let '(best_score, best_label) := scan_examples table text in
  if Qgtb best_score threshold then best_label else "Miscellaneous".

(** *** The matcher as the specification words it

    [match(raw_label) -> label | None]: over every (canonical label,
    example) pair, the best ratio; a match when it is above the threshold,
    and then the label of the first pair that has it. *)

(** The pairs of a table in iteration order. *)
Definition pairs (table : list (string * list string)) : list (string * string) :=
  flat_map (fun entry => map (fun example => (fst entry, example)) (snd entry)) table.

Definition score (text : string) (p : string * string) : Q :=
  Difflib.ratio text (snd p).

Definition Qmax (x y : Q) : Q := if Qle_bool x y then y else x.

(** The greatest score over a list of pairs, from the initial [0]. *)
Definition maxr (text : string) (ps : list (string * string)) : Q :=
  fold_right (fun p m => Qmax (score text p) m) 0%Q ps.

Definition best_ratio (table : list (string * list string)) (text : string) : Q :=
  maxr text (pairs table).

Definition first_best (table : list (string * list string)) (text : string)
  : option (string * string) :=
  find (fun p => Qeq_bool (score text p) (best_ratio table text)) (pairs table).

Definition match_spec (table : list (string * list string)) (raw : string)
  : option string :=
  let text := PyStr.strip (PyStr.lower raw) in
  if Qgtb (best_ratio table text) threshold
  then option_map fst (first_best table text)
  else None.

(** The keys of a table, and the default label. *)
Definition canonical_labels (table : list (string * list string)) : list string :=
  map fst table ++ ["Miscellaneous"].

(** The loop of [scan_examples] over a flat list of pairs, from any state. *)
Definition run (text : string) (ps : list (string * string)) (best : Q * string)
  : Q * string :=
  fold_left (fun best p => try_example text (fst p) (snd p) best) ps best.

(** *** The fallback classifier

    scikit-learn is outside the repository: a fitted [TfidfVectorizer] is
    its [transform], a fitted [MultinomialNB] is its [predict], and fitting
    is a parameter of the development.  [Features] is the type of one row
    of the TF-IDF matrix. *)

Section Classifier.

Variable Features : Type.

Record TfidfVectorizer : Type := { transform : string -> Features }.

Record MultinomialNB : Type := { predict : Features -> string }.

(** [TfidfVectorizer(stop_words="english").fit_transform(docs)]: the fitted
    vectorizer and the matrix, or [None] when scikit-learn raises (an empty
    vocabulary). *)
Variable fit_transform : list string -> option (TfidfVectorizer * list Features).

(** [MultinomialNB().fit(X, y)]. *)
Variable fit : list Features -> list string -> MultinomialNB.

(** What a function of this module asks of the classifier, in order. *)
Inductive call : Type :=
  | Transform (description : string)
  | Predict (X : Features).

(** A computation that returns a value and the classifier calls it made. *)
Definition Traced (A : Type) : Type := (A * list call)%type.

Definition ret {A} (x : A) : Traced A := (x, []).

Definition bind {A B} (m : Traced A) (f : A -> Traced B) : Traced B :=
  let '(x, t1) := m in
  let '(y, t2) := f x in
  (y, t1 ++ t2).

Notation "x <- m ;; k" := (bind m (fun x => k))
  (at level 61, m at next level, right associativity).

(** [vectorizer.transform([description])]. *)
Definition call_transform (vectorizer : TfidfVectorizer) (description : string)
  : Traced Features :=
  (transform vectorizer description, [Transform description]).

(** [model.predict(X_new)[0]]. *)
Definition call_predict (model : MultinomialNB) (X_new : Features) : Traced string :=
  (predict model X_new, [Predict X_new]).

(** The result of a training function: the pair it returns, or [None] when
    scikit-learn raised. *)
Definition Trained : Type := option (option MultinomialNB * option TfidfVectorizer).

(** [train_category_classifier()], reading the collection
    [expenses.find({}, {"description": 1, "category": 1})]. *)
Definition train_category_classifier (expenses : Store.Collection) : Trained :=
  let data := map (fun e => (Store.description e, Store.category e)) expenses in
  if List.length data <? 2 then Some (None, None)
  else
    match fit_transform (map fst data) with
    | None => None
    | Some (vectorizer, X) =>
        let y := map snd data in
        let model := fit X y in
        Some (Some model, Some vectorizer)
    end.

(** [train_payment_classifier()]. *)
Definition train_payment_classifier (expenses : Store.Collection) : Trained :=
  let data := map (fun e => (Store.description e, Store.payment_method e)) expenses in
  if List.length data <? 2 then Some (None, None)
  else
    match fit_transform (map fst data) with
    | None => None
    | Some (vectorizer, X) =>
        let y := map snd data in
        let model := fit X y in
        Some (Some model, Some vectorizer)
    end.

Definition predict_and_refine_category (description user_category : string)
    (model : option MultinomialNB) (vectorizer : option TfidfVectorizer)
  : Traced string :=
  let general_category := get_general_category_from_similarity user_category in
  if negb (String.eqb general_category "Miscellaneous") then ret general_category
  else
    match model, vectorizer with
    | Some model, Some vectorizer =>
        X_new <- call_transform vectorizer description ;;
        predicted_category <- call_predict model X_new ;;
        ret predicted_category
    | _, _ => ret "Miscellaneous"
    end.

Definition predict_and_refine_payment (description user_payment : string)
    (model : option MultinomialNB) (vectorizer : option TfidfVectorizer)
  : Traced string :=
  let general_payment := get_general_payment_method user_payment in
  if negb (String.eqb general_payment "Miscellaneous") then ret general_payment
  else
    match model, vectorizer with
    | Some model, Some vectorizer =>
        X_new <- call_transform vectorizer description ;;
        predicted_payment <- call_predict model X_new ;;
        ret predicted_payment
    | _, _ => ret "Miscellaneous"
    end.

End Classifier.

Arguments transform {Features}.
Arguments predict {Features}.
Arguments Build_TfidfVectorizer {Features}.
Arguments Build_MultinomialNB {Features}.
Arguments Transform {Features}.
Arguments Predict {Features}.
Arguments ret {Features A}.
Arguments bind {Features A B}.
Arguments train_category_classifier {Features}.
Arguments train_payment_classifier {Features}.
Arguments predict_and_refine_category {Features}.
Arguments predict_and_refine_payment {Features}.

End Nlp.

(** ** The matcher on double-precision numbers

    The same loops with the scores as Python has them: IEEE 754 binary64
    numbers, here the [spec_float] of the standard library at precision 53.
    The rest of the development works with the exact fractions of [Nlp];
    [DoubleFacts] relates the two. *)

Module Double.

Definition prec : Z := 53.
Definition emax : Z := 1024.

(** [float(n)] for a natural number. *)
Definition of_nat (n : nat) : spec_float :=
  binary_normalize prec emax (Z.of_nat n) 0 false.

(** The literal [0.8], which Python reads as [0x1.999999999999ap-1]. *)
Definition literal_0_8 : spec_float := S754_finite false 7205759403792794 (-53).

(** [_calculate_ratio(matches, length)]. *)
Definition calculate_ratio (matches length : nat) : spec_float :=
  if length =? 0 then of_nat 1
  else SFdiv prec emax (SFmul prec emax (of_nat 2) (of_nat matches)) (of_nat length).

Definition ratio (a b : string) : spec_float :=
  let a' := list_ascii_of_string a in
  let b' := list_ascii_of_string b in
  calculate_ratio (Difflib.matches a' b') (List.length a' + List.length b').

Definition gtb (x y : spec_float) : bool := SFltb y x.

Definition try_example (text general example : string) (best : spec_float * string)
  : spec_float * string :=
  let score := ratio text example in
  if gtb score (fst best) then (score, general) else best.

Definition run (text : string) (ps : list (string * string))
    (best : spec_float * string) : spec_float * string :=
  fold_left (fun best p => try_example text (fst p) (snd p) best) ps best.

Definition scan_examples (table : list (string * list string)) (text : string)
  : spec_float * string :=
  fold_left
    (fun best entry =>
       fold_left (fun best example => try_example text (fst entry) example best)
                 (snd entry) best)
    table (of_nat 0, "Miscellaneous").

Definition similarity_lookup (table : list (string * list string)) (raw : string)
  : string :=
  let text := PyStr.strip (PyStr.lower raw) in
  let '(best_score, best_label) := scan_examples table text in
  if gtb best_score literal_0_8 then best_label else "Miscellaneous".

(** The (matches, length) arguments with [matches <= length <= n]. *)
Definition grid (n : nat) : list (nat * nat) :=
  flat_map (fun len => map (fun m => (m, len)) (seq 0 (S len))) (seq 0 (S n)).

(** A score both ways: as a double and as a fraction. *)
Definition both (ml : nat * nat) : spec_float * Q :=
  (calculate_ratio (fst ml) (snd ml), Difflib.calculate_ratio (fst ml) (snd ml)).

(** The threshold test on the double is the one on the fraction. *)
Definition same_threshold (x : spec_float * Q) : bool :=
  Bool.eqb (gtb (fst x) literal_0_8) (Nlp.Qgtb (snd x) Nlp.threshold).

(** [>] on two doubles is [>] on the two fractions. *)
Definition same_order (x y : spec_float * Q) : bool :=
  Bool.eqb (gtb (fst x) (fst y)) (Nlp.Qgtb (snd x) (snd y)).

(** A test on every two members of a list. *)
Definition all_pairs {A : Type} (P : A -> A -> bool) (l : list A) : bool :=
  forallb (fun x => forallb (P x) l) l.

(** The longest text plus example the comparison is checked for. *)
Definition bound : nat := 48.

(** Two loop states that hold the same label and the same score, one as a
    double and one as a fraction. *)
Definition related (d : spec_float * string) (q : Q * string) : Prop :=
  snd d = snd q
  /\ exists m len,
       len <= bound /\ m <= len
       /\ fst d = calculate_ratio m len
       /\ fst q = Difflib.calculate_ratio m len.

End Double.

(** ** [src/storage/database.py] *)

Module Database.

Import Nlp.

(** [float(amount)] on a number. *)
Definition float (amount : Q) : Q := amount.

(** Truth value of an optional argument: [None] is false, and a fitted
    scikit-learn object is true. *)
Definition truthy {A} (x : option A) : bool :=
  match x with
  | Some _ => true
  | None => false
  end.

(** [add_expense_db], on the collection [init_db()["expenses"]]; the four
    classifier arguments default to [None].  It returns the collection after
    the insert and the classifier calls made on the way. *)
Definition add_expense_db {Features : Type}
    (date : string) (amount : Q) (category description payment_method : string)
    (category_model : option (MultinomialNB Features))
    (category_vectorizer : option (TfidfVectorizer Features))
    (payment_model : option (MultinomialNB Features))
    (payment_vectorizer : option (TfidfVectorizer Features))
    (expenses : Store.Collection) : Traced Features Store.Collection :=
  let refined_category := get_general_category_from_similarity category in
  let refined_payment := get_general_payment_method payment_method in
  bind
    (if String.eqb refined_category "Miscellaneous"
        && truthy category_model && truthy category_vectorizer
     then predict_and_refine_category description category
            category_model category_vectorizer
     else ret refined_category)
    (fun refined_category =>
  bind
    (if String.eqb refined_payment "Miscellaneous"
        && truthy payment_model && truthy payment_vectorizer
     then predict_and_refine_payment description payment_method
            payment_model payment_vectorizer
     else ret refined_payment)
    (fun refined_payment =>
  let expense :=
    {| Store.date := date;
       Store.amount := float amount;
       Store.category := refined_category;
       Store.original_category := category;
       Store.description := description;
       Store.payment_method := refined_payment;
       Store.original_payment_method := payment_method |} in
  ret (Store.insert_one expenses expense))).

(** [get_all_expenses()]. *)
Definition get_all_expenses (expenses : Store.Collection) : list Store.Expense :=
  expenses.

End Database.

(** ** Measures on the side of [b]

    The counterparts, for the second sequence, of [Difflib.within],
    [Difflib.ordered] and [Difflib.span]. *)

Module DifflibB.

Import Difflib.

(** A block lies inside the window [blo, bhi) of [b]. *)
Definition within_b (blo bhi : nat) (m : Match) : Prop :=
  blo <= snd (fst m) /\ snd (fst m) + snd m <= bhi.

(** An entry [(j, k)] of [j2len]: a run of [k] characters of the window
    that ends at [b[j]]. *)
Definition run_in (blo : nat) (e : nat * nat) : Prop :=
  blo <= fst e /\ snd e <= fst e + 1 - blo.

Definition ordered_b (e : nat * nat * nat * nat) : Prop :=
  snd (fst e) <= snd e.

Definition span_b (queue : list (nat * nat * nat * nat)) : nat :=
  fold_right (fun e n => snd e - snd (fst e) + n) 0 queue.

End DifflibB.

(** ** Exceptions and data frames

    What the scripts that read the collection can end in, and the little
    of [pandas] they use: a frame built from no document has no column, so
    asking it for one raises [KeyError].  Sums of a column of doubles are
    computed by pandas and are parameters of the functions that use
    them. *)

Module Py.

Inductive error : Type :=
  | KeyError (key : string)
  | ValueError.

Inductive result (A : Type) : Type :=
  | Returned (value : A)
  | Raised (e : error).

Arguments Returned {A}.
Arguments Raised {A}.

(** [df[name]] on the frame of the documents [rows]: the column, or
    [KeyError(name)] when the frame was built from an empty list. *)
Definition column {Row A : Type} (name : string) (field : Row -> A)
    (rows : list Row) : result (list A) :=
  match rows with
  | [] => Raised (KeyError name)
  | _ => Returned (map field rows)
  end.

(** One more key for a list of keys kept in ascending order, each once. *)
Fixpoint key_add (key : string) (keys : list string) : list string :=
  match keys with
  | [] => [key]
  | key' :: rest =>
      match String.compare key key' with
      | Lt => key :: keys
      | Eq => keys
      | Gt => key' :: key_add key rest
      end
  end.

(** The values a column takes in the documents [rows], in ascending order,
    each once: the index of a [groupby] on that column. *)
Definition group_keys (key_of : Store.Expense -> string)
    (rows : list Store.Expense) : list string :=
  fold_left (fun keys e => key_add (key_of e) keys) rows [].

(** The amounts of the documents of one group, in row order. *)
Definition group_amounts (key_of : Store.Expense -> string)
    (rows : list Store.Expense) (key : string) : list Q :=
  map Store.amount (filter (fun e => String.eqb (key_of e) key) rows).

(** [df.groupby(name)["amount"].sum()], with [key_of] reading the column
    [name]: one row per value of the column, in ascending order of the
    value.  The total of a group is what pandas makes of the amounts of the
    group in row order; that summation of doubles, [group_sum], is a
    parameter. *)
Definition groupby_sum (group_sum : list Q -> Q)
    (key_of : Store.Expense -> string) (rows : list Store.Expense)
  : list (string * Q) :=
  map (fun key => (key, group_sum (group_amounts key_of rows key)))
      (group_keys key_of rows).

(** The row of a summary for one key. *)
Fixpoint row (key : string) (groups : list (string * Q)) : option Q :=
  match groups with
  | [] => None
  | (key', total) :: rest => if String.eqb key key' then Some total else row key rest
  end.

(** Strictly ascending keys. *)
Fixpoint ascending (keys : list string) : Prop :=
  match keys with
  | [] => True
  | k :: rest =>
      match rest with
      | [] => True
      | k' :: _ => String.compare k k' = Lt
      end /\ ascending rest
  end.

End Py.

(** ** [src/analysis/reporting.py] *)

Module Reporting.

(** What [generate_report] prints: the total and the two summaries. *)
Record Report : Type := {
  total_expenses : Q;
  category_summary : list (string * Q);
  payment_summary : list (string * Q)
}.

Section Report.

(** [series.sum()] on the amount column, and the sum [groupby] makes of
    one group: both are pandas' sums of doubles. *)
Variable series_sum : list Q -> Q.
Variable group_sum : list Q -> Q.

(** [generate_report()], on the collection [expenses.find()]. *)
Definition generate_report (expenses : Store.Collection) : Py.result Report :=
  match Py.column "amount" Store.amount expenses with
  | Py.Raised e => Py.Raised e
  | Py.Returned amounts =>
      let total_expenses := series_sum amounts in
      let category_summary := Py.groupby_sum group_sum Store.category expenses in
      let payment_summary :=
        Py.groupby_sum group_sum Store.payment_method expenses in
      Py.Returned {| total_expenses := total_expenses;
                     category_summary := category_summary;
                     payment_summary := payment_summary |}
  end.

End Report.

End Reporting.

(** ** [src/customization/settings.py] *)

Module Settings.

(** The one line [check_budget] may print. *)
Inductive line : Type :=
  | Alert (category : string) (total_spent budget_limit : Q).

(** [expenses.find({"category": category}, {"amount": 1})]: the documents
    whose category is exactly [category]. *)
Definition find_category (category : string) (expenses : Store.Collection)
  : list Store.Expense :=
  filter (fun e => String.eqb (Store.category e) category) expenses.

Section Budget.

(** [series.sum()] on the amount column: pandas' sum of doubles. *)
Variable series_sum : list Q -> Q.

(** [check_budget(category, budget_limit)]: what is printed, or the
    exception. *)
Definition check_budget (category : string) (budget_limit : Q)
    (expenses : Store.Collection) : Py.result (list line) :=
  let df := find_category category expenses in
  match Py.column "amount" Store.amount df with
  | Py.Raised e => Py.Raised e
  | Py.Returned amounts =>
      let total_spent := series_sum amounts in
      if Nlp.Qgtb total_spent budget_limit
      then Py.Returned [Alert category total_spent budget_limit]
      else Py.Returned []
  end.

End Budget.

End Settings.

(** ** [src/analysis/ml_models.py]

    Prophet, scikit-learn and the date parser of pandas are outside the
    repository and are parameters; each may raise. *)

Module MlModels.

Section Models.

Variables Timestamp Forecast Anomalies : Type.

(** [pd.to_datetime] on the date column; [None] when it raises (a date it
    cannot read). *)
Variable to_datetime : list string -> option (list Timestamp).

(** [(df["date"] - df["date"].min()).dt.days]. *)
Variable days_since_first : list Timestamp -> list Z.

(** [pd.DataFrame()]. *)
Variable empty_forecast : Forecast.
Variable empty_anomalies : Anomalies.

(** Fitting Prophet on [(ds, y)] and predicting 30 more days. *)
Variable prophet : list (Timestamp * Q) -> Py.result Forecast.

(** Fitting [LinearRegression] on [(days, amount)] and predicting at one
    more day count. *)
Variable linear_regression : list (Z * Q) -> Z -> Py.result Q.

(** [KMeans(n_clusters=3)] on the encoded [(amount, category)] rows and the
    selection of the far points. *)
Variable kmeans_anomalies : list (Q * string) -> Py.result Anomalies.

(** [forecast_expenses()]. *)
Definition forecast_expenses (expenses : Store.Collection) : Py.result Forecast :=
  match Py.column "date" Store.date expenses with
  | Py.Raised e => Py.Raised e
  | Py.Returned dates =>
      match to_datetime dates with
      | None => Py.Raised Py.ValueError
      | Some ds =>
          let y := map Store.amount expenses in
          if List.length expenses <? 2 then Py.Returned empty_forecast
          else prophet (combine ds y)
      end
  end.

(** [predict_expenses()]. *)
Definition predict_expenses (expenses : Store.Collection) : Py.result Q :=
  match Py.column "date" Store.date expenses with
  | Py.Raised e => Py.Raised e
  | Py.Returned dates =>
      match to_datetime dates with
      | None => Py.Raised Py.ValueError
      | Some ds =>
          let days := days_since_first ds in
          let y := map Store.amount expenses in
          if List.length expenses <? 2 then Py.Returned 0%Q
          else linear_regression (combine days y)
                 (fold_right Z.max 0%Z days + 30)%Z
      end
  end.

(** [detect_anomalies()]. *)
Definition detect_anomalies (expenses : Store.Collection) : Py.result Anomalies :=
  if List.length expenses <? 3 then Py.Returned empty_anomalies
  else kmeans_anomalies
         (map (fun e => (Store.amount e, Store.category e)) expenses).

End Models.

End MlModels.

(** ** [src/interface/gui.py]: the [submit] callback *)

Module Gui.

(** The message boxes of [tkinter]. *)
Inductive dialog : Type :=
  | showerror (title message : string)
  | showinfo (title message : string).

(** The five entry fields when Submit is pressed. *)
Record Form : Type := {
  date_entry : string;
  amount_entry : string;
  category_entry : string;
  desc_entry : string;
  payment_entry : string
}.

(** [not s] on a string. *)
Definition is_empty (s : string) : bool := String.eqb s "".

Section Submit.

(** [float(amount)] on the text of the amount field: the number, or [None]
    for the [ValueError] the callback catches. *)
Variable float_of_text : string -> option Q.

(** [submit()]: the dialog shown, whether the window is destroyed, and the
    collection afterwards.  [add_expense_db] is called without
    classifiers. *)
Definition submit (form : Form) (expenses : Store.Collection)
  : dialog * bool * Store.Collection :=
  let date := date_entry form in
  let amount := amount_entry form in
  let category := category_entry form in
  let desc := desc_entry form in
  let payment := payment_entry form in
  if is_empty date || is_empty amount || is_empty category
     || is_empty desc || is_empty payment
  then (showerror "Error" "Please fill in all fields.", false, expenses)
  else
    match float_of_text amount with
    | Some x =>
        let '(expenses', _) :=
          Database.add_expense_db (Features := unit) date x category desc payment
            None None None None expenses in
        (showinfo "Success" "Expense added successfully!", true, expenses')
    | None => (showerror "Error" "Amount must be a number.", false, expenses)
    end.

(** A form that passes both checks of [submit]. *)
Definition accepted (form : Form) : bool :=
  negb (is_empty (date_entry form) || is_empty (amount_entry form)
        || is_empty (category_entry form) || is_empty (desc_entry form)
        || is_empty (payment_entry form))
  && match float_of_text (amount_entry form) with
     | Some _ => true
     | None => false
     end.

(** The collection after a series of submissions. *)
Definition session (forms : list Form) (expenses : Store.Collection)
  : Store.Collection :=
  fold_left (fun expenses form => snd (submit form expenses)) forms expenses.

End Submit.

(** A record as the form produces it: the typed texts are there and not
    empty, and the two labels are those the matchers give them. *)
Definition from_form (e : Store.Expense) : Prop :=
  Store.date e <> ""
  /\ Store.original_category e <> ""
  /\ Store.description e <> ""
  /\ Store.original_payment_method e <> ""
  /\ Store.category e
     = Nlp.get_general_category_from_similarity (Store.original_category e)
  /\ Store.payment_method e
     = Nlp.get_general_payment_method (Store.original_payment_method e).

(** A record whose two labels are keys of the tables or the default. *)
Definition canonical (e : Store.Expense) : Prop :=
  In (Store.category e) (Nlp.canonical_labels Nlp.CATEGORY_EXAMPLES)
  /\ In (Store.payment_method e) (Nlp.canonical_labels Nlp.PAYMENT_EXAMPLES).

End Gui.

(** ** The matchers as they run

    The two matchers once more, this time as computations on the state of
    the running process: the two module-level tables (Python dictionaries,
    which any code could change), the collection of the database, and what
    has been printed.  A computation takes the state and returns its
    answer with the state it leaves behind, so reading something other
    than the table, or writing anything, would show. *)

Module Runtime.

Record World : Type := {
  category_examples : list (string * list string);
  payment_examples : list (string * list string);
  collection : Store.Collection;
  printed : list string
}.

Definition Run (A : Type) : Type := World -> A * World.

Definition ret {A : Type} (x : A) : Run A := fun w => (x, w).

Definition bind {A B : Type} (m : Run A) (f : A -> Run B) : Run B :=
  fun w => let '(x, w') := m w in f x w'.

Notation "x <- m ;; k" := (bind m (fun x => k))
  (at level 61, m at next level, right associativity).

(** Reading the globals [CATEGORY_EXAMPLES] and [PAYMENT_EXAMPLES]. *)
Definition read_CATEGORY_EXAMPLES : Run (list (string * list string)) :=
  fun w => (category_examples w, w).

Definition read_PAYMENT_EXAMPLES : Run (list (string * list string)) :=
  fun w => (payment_examples w, w).

(** What other code of the program does to the state: an insert into the
    collection, a line printed. *)
Definition insert_one (expense : Store.Expense) : Run unit :=
  fun w => (tt, {| category_examples := category_examples w;
                   payment_examples := payment_examples w;
                   collection := Store.insert_one (collection w) expense;
                   printed := printed w |}).

Definition print (text : string) : Run unit :=
  fun w => (tt, {| category_examples := category_examples w;
                   payment_examples := payment_examples w;
                   collection := collection w;
                   printed := printed w ++ [text] |}).

(** [for x in items: state = body(x, state)]. *)
Fixpoint for_each {A S : Type} (items : list A) (body : A -> S -> Run S) (state : S)
  : Run S :=
  match items with
  | [] => ret state
  | x :: rest => state' <- body x state ;; for_each rest body state'
  end.

Definition get_general_category_from_similarity (category : string) : Run string :=
  let category := PyStr.strip (PyStr.lower category) in
  table <- read_CATEGORY_EXAMPLES ;;
  best <- for_each table
            (fun entry best =>
               for_each (snd entry)
                 (fun example best =>
                    let score := Difflib.ratio category example in
                    ret (if Nlp.Qgtb score (fst best)
                         then (score, fst entry) else best))
                 best)
            (0%Q, "Miscellaneous") ;;
  ret (if Nlp.Qgtb (fst best) Nlp.threshold then snd best else "Miscellaneous").

Definition get_general_payment_method (payment_method : string) : Run string :=
  let payment_method := PyStr.strip (PyStr.lower payment_method) in
  table <- read_PAYMENT_EXAMPLES ;;
  best <- for_each table
            (fun entry best =>
               for_each (snd entry)
                 (fun example best =>
                    let score := Difflib.ratio payment_method example in
                    ret (if Nlp.Qgtb score (fst best)
                         then (score, fst entry) else best))
                 best)
            (0%Q, "Miscellaneous") ;;
  ret (if Nlp.Qgtb (fst best) Nlp.threshold then snd best else "Miscellaneous").

(** The state when the module has been loaded, over some collection. *)
Definition loaded (expenses : Store.Collection) : World :=
  {| category_examples := Nlp.CATEGORY_EXAMPLES;
     payment_examples := Nlp.PAYMENT_EXAMPLES;
     collection := expenses;
     printed := [] |}.

End Runtime.

(** * Properties *)

(** ** The matching loop of [difflib] ends *)

Module DifflibFacts.

Import Difflib.

Lemma j2len_get_bound (n : nat) (d : list (nat * nat)) :
  Forall (fun e => snd e <= n) d -> forall j, j2len_get d j <= n.
Proof.
  induction 1 as [| [j' k] d Hk _ IH]; intros j; simpl.
  - lia.
  - destruct (j' =? j); [exact Hk | apply IH].
Qed.

Lemma scan_row_within (alo ahi blo bhi i : nat) (j2len : list (nat * nat)) :
  alo <= i -> i < ahi ->
  Forall (fun e => snd e <= i - alo) j2len ->
  forall js newj2len best,
    Forall (fun e => snd e <= S i - alo) newj2len ->
    within alo ahi best ->
    Forall (fun e => snd e <= S i - alo)
           (fst (scan_row i blo bhi j2len js newj2len best))
    /\ within alo ahi (snd (scan_row i blo bhi j2len js newj2len best)).
Proof.
  intros Hlo Hhi Hprev.
  induction js as [| j js IH]; intros newj2len best Hnew Hbest; simpl.
  - split; assumption.
  - destruct (j <? blo); [apply IH; assumption |].
    destruct (bhi <=? j); [split; assumption |].
    destruct best as [[besti bestj] bestsize].
    assert (Hk : j2len_get_pred j2len j <= i - alo).
    { destruct j as [| j']; simpl; [lia | apply j2len_get_bound; exact Hprev]. }
    apply IH.
    + constructor; [cbn [snd]; lia | exact Hnew].
    + destruct (bestsize <? j2len_get_pred j2len j + 1); [| exact Hbest].
      unfold within; cbn [fst snd]; lia.
Qed.

Lemma scan_rows_within (a : list ascii) (b2j : list (ascii * list nat))
    (alo ahi blo bhi : nat) :
  forall n i j2len best,
    alo <= i -> i + n <= ahi ->
    Forall (fun e => snd e <= i - alo) j2len ->
    within alo ahi best ->
    within alo ahi (scan_rows a b2j blo bhi (seq i n) j2len best).
Proof.
  induction n as [| n IH]; intros i j2len best Hlo Hhi Hprev Hbest; simpl.
  - exact Hbest.
  - pose proof (scan_row_within alo ahi blo bhi i j2len Hlo ltac:(lia) Hprev
                  (b2j_get b2j (nth i a Ascii.zero)) [] best
                  (Forall_nil _) Hbest) as [Hnew Hbest'].
    destruct (scan_row i blo bhi j2len (b2j_get b2j (nth i a Ascii.zero)) [] best)
      as [newj2len best'].
    apply IH; simpl in *; try lia; assumption.
Qed.

Lemma extend_left_within (want_junk : bool) (a b : list ascii) (alo ahi blo : nat) :
  forall fuel m, within alo ahi m ->
    within alo ahi (extend_left fuel want_junk a b alo blo m).
Proof.
  induction fuel as [| fuel IH]; intros [[besti bestj] bestsize] Hm; simpl.
  - exact Hm.
  - destruct (alo <? besti) eqn:Hlt; simpl; [| exact Hm].
    match goal with |- within _ _ (if ?c then _ else _) => destruct c end;
      [| exact Hm].
    apply IH. apply Nat.ltb_lt in Hlt. unfold within in *; simpl in *; lia.
Qed.

Lemma extend_right_within (want_junk : bool) (a b : list ascii) (alo ahi bhi : nat) :
  forall fuel m, within alo ahi m ->
    within alo ahi (extend_right fuel want_junk a b ahi bhi m).
Proof.
  induction fuel as [| fuel IH]; intros [[besti bestj] bestsize] Hm; simpl.
  - exact Hm.
  - destruct (besti + bestsize <? ahi) eqn:Hlt; simpl; [| exact Hm].
    match goal with |- within _ _ (if ?c then _ else _) => destruct c end;
      [| exact Hm].
    apply IH. apply Nat.ltb_lt in Hlt. unfold within in *; simpl in *; lia.
Qed.

(** [find_longest_match] answers inside the window it is given. *)
Lemma find_longest_match_within (a b : list ascii) (b2j : list (ascii * list nat))
    (alo ahi blo bhi : nat) :
  alo <= ahi -> within alo ahi (find_longest_match a b b2j alo ahi blo bhi).
Proof.
  intros Hle. unfold find_longest_match.
  apply extend_right_within, extend_left_within,
        extend_right_within, extend_left_within.
  apply scan_rows_within; try lia.
  - constructor.
  - unfold within; simpl; lia.
Qed.

Lemma weight_cons (alo ahi blo bhi : nat) (queue : list (nat * nat * nat * nat)) :
  weight ((alo, ahi, blo, bhi) :: queue) = 2 * (ahi - alo) + 1 + weight queue.
Proof. reflexivity. Qed.

Lemma matching_loop_drains (a b : list ascii) (b2j : list (ascii * list nat)) :
  forall fuel queue blocks,
    Forall ordered queue -> weight queue <= fuel ->
    fst (matching_loop fuel a b b2j queue blocks) = [].
Proof.
  induction fuel as [| fuel IH]; intros queue blocks Hord Hw.
  - destruct queue as [| [[[alo ahi] blo] bhi] queue]; [reflexivity |].
    rewrite weight_cons in Hw. lia.
  - destruct queue as [| [[[alo ahi] blo] bhi] queue]; [reflexivity |].
    inversion Hord as [| ? ? Hhd Htl]; subst. unfold ordered in Hhd; simpl in Hhd.
    pose proof (find_longest_match_within a b b2j alo ahi blo bhi Hhd) as Hin.
    rewrite weight_cons in Hw. simpl.
    destruct (find_longest_match a b b2j alo ahi blo bhi) as [[i j] k].
    unfold within in Hin; simpl in Hin.
    destruct (k =? 0) eqn:Hk.
    + apply IH; [exact Htl | lia].
    + apply Nat.eqb_neq in Hk.
      destruct ((alo <? i) && (blo <? j)) eqn:H1;
        destruct ((i + k <? ahi) && (j + k <? bhi)) eqn:H2;
        apply IH; repeat rewrite weight_cons;
        repeat (apply Forall_cons; [unfold ordered; simpl; lia |]);
        try exact Htl; lia.
Qed.

(** The fuel [get_matching_blocks] gives the loop is enough: the queue is
    empty when it stops, for all [a] and [b]. *)
Lemma matching_loop_ends (a b : list ascii) :
  fst (matching_loop (loop_fuel (List.length a)) a b (chain_b b)
         [(0, List.length a, 0, List.length b)] []) = [].
Proof.
  apply matching_loop_drains.
  - repeat constructor. unfold ordered; simpl; lia.
  - unfold loop_fuel; simpl; lia.
Qed.

(** Against an empty [a] nothing matches. *)
Lemma matches_nil_l (b : list ascii) : matches [] b = 0.
Proof. reflexivity. Qed.

(** *** The blocks cover no more than [a] *)

Lemma total_cons (x : Match) (l : list Match) : total (x :: l) = snd x + total l.
Proof. reflexivity. Qed.

Lemma total_app (l1 l2 : list Match) : total (l1 ++ l2) = total l1 + total l2.
Proof.
  induction l1 as [| x l1 IH]; [reflexivity |].
  rewrite <- app_comm_cons, !total_cons, IH. lia.
Qed.

Lemma total_snoc (l : list Match) (x : Match) : total (l ++ [x]) = total l + snd x.
Proof. rewrite total_app, total_cons. change (total []) with 0. lia. Qed.

Lemma span_cons (alo ahi blo bhi : nat) (queue : list (nat * nat * nat * nat)) :
  span ((alo, ahi, blo, bhi) :: queue) = ahi - alo + span queue.
Proof. reflexivity. Qed.

Lemma matching_loop_total (a b : list ascii) (b2j : list (ascii * list nat)) :
  forall fuel queue blocks,
    Forall ordered queue ->
    total (snd (matching_loop fuel a b b2j queue blocks)) <= total blocks + span queue.
Proof.
  induction fuel as [| fuel IH]; intros queue blocks Hord.
  - destruct queue; cbn [matching_loop snd]; lia.
  - destruct queue as [| [[[alo ahi] blo] bhi] queue];
      [cbn [matching_loop snd]; lia |].
    inversion Hord as [| ? ? Hhd Htl]; subst. unfold ordered in Hhd; simpl in Hhd.
    pose proof (find_longest_match_within a b b2j alo ahi blo bhi Hhd) as Hin.
    rewrite span_cons. cbn [matching_loop].
    destruct (find_longest_match a b b2j alo ahi blo bhi) as [[i j] k].
    unfold within in Hin; simpl in Hin.
    destruct (k =? 0).
    + etransitivity; [apply IH; exact Htl | lia].
    + destruct ((alo <? i) && (blo <? j)) eqn:H1;
        destruct ((i + k <? ahi) && (j + k <? bhi)) eqn:H2;
        (etransitivity;
         [ apply IH; repeat (apply Forall_cons; [unfold ordered; simpl; lia |]);
           exact Htl
         | rewrite total_snoc; repeat rewrite span_cons; cbn [snd]; lia ]).
Qed.

Lemma total_insert_sorted (x : Match) (l : list Match) :
  total (insert_sorted x l) = snd x + total l.
Proof.
  induction l as [| y l IH]; [reflexivity |].
  cbn [insert_sorted]. destruct (match_leb x y); [reflexivity |].
  rewrite !total_cons, IH. lia.
Qed.

Lemma total_sort_blocks (l : list Match) : total (sort_blocks l) = total l.
Proof.
  induction l as [| x l IH]; [reflexivity |].
  change (sort_blocks (x :: l)) with (insert_sorted x (sort_blocks l)).
  rewrite total_insert_sorted, total_cons, IH. reflexivity.
Qed.

Lemma collapse_total (blocks : list Match) :
  forall cur non_adjacent,
    total (snd (collapse blocks cur non_adjacent))
    + snd (fst (collapse blocks cur non_adjacent))
    = total non_adjacent + snd cur + total blocks.
Proof.
  induction blocks as [| [[i2 j2] k2] blocks IH]; intros [[i1 j1] k1] non_adjacent.
  - cbn [collapse fst snd]. change (total []) with 0. lia.
  - cbn [collapse]. rewrite total_cons.
    destruct ((i1 + k1 =? i2) && (j1 + k1 =? j2)).
    + rewrite IH. cbn [snd]. lia.
    + rewrite IH. cbn [snd]. destruct (k1 =? 0) eqn:Hk.
      * apply Nat.eqb_eq in Hk. lia.
      * rewrite total_snoc. cbn [snd]. lia.
Qed.

Lemma matches_total (a b : list ascii) :
  matches a b = total (get_matching_blocks a b).
Proof.
  unfold matches.
  assert (H : forall l n, fold_left (fun acc (t : Match) => acc + snd t) l n
                          = n + total l).
  { induction l as [| x l IH]; intros n.
    - cbn [fold_left]. change (total []) with 0. lia.
    - cbn [fold_left]. rewrite IH, total_cons. lia. }
  rewrite H. reflexivity.
Qed.

(** [matches] counts characters of [a], each at most once. *)
Lemma matches_le (a b : list ascii) : matches a b <= List.length a.
Proof.
  rewrite matches_total. unfold get_matching_blocks.
  pose proof (matching_loop_total a b (chain_b b) (loop_fuel (List.length a))
                [(0, List.length a, 0, List.length b)] []) as Hloop.
  destruct (matching_loop (loop_fuel (List.length a)) a b (chain_b b)
              [(0, List.length a, 0, List.length b)] []) as [queue blocks].
  cbn [snd] in Hloop.
  pose proof (collapse_total (sort_blocks blocks) (0, 0, 0) []) as Hcol.
  destruct (collapse (sort_blocks blocks) (0, 0, 0) []) as [[[i1 j1] k1] non_adjacent].
  cbn [fst snd] in Hcol. rewrite total_sort_blocks in Hcol.
  change (total []) with 0 in *.
  assert (Hq : total blocks <= List.length a).
  { etransitivity; [apply Hloop |].
    - repeat constructor. unfold ordered; simpl; lia.
    - rewrite span_cons. change (span []) with 0. lia. }
  rewrite total_snoc. cbn [snd]. destruct (k1 =? 0) eqn:Hk.
  + apply Nat.eqb_eq in Hk. lia.
  + rewrite total_snoc. cbn [snd]. lia.
Qed.

End DifflibFacts.

(** ** The similarity matcher *)

Module NlpFacts.

Import Nlp.

Lemma category_lookup (raw : string) :
  get_general_category_from_similarity raw = similarity_lookup CATEGORY_EXAMPLES raw.
Proof. reflexivity. Qed.

Lemma payment_lookup (raw : string) :
  get_general_payment_method raw = similarity_lookup PAYMENT_EXAMPLES raw.
Proof. reflexivity. Qed.

Lemma Qgtb_true (x y : Q) : Qgtb x y = true <-> (y < x)%Q.
Proof.
  unfold Qgtb. rewrite negb_true_iff, <- not_true_iff_false, Qle_bool_iff.
  split; [apply Qnot_le_lt | apply Qlt_not_le].
Qed.

Lemma Qgtb_false (x y : Q) : Qgtb x y = false <-> (x <= y)%Q.
Proof.
  unfold Qgtb. rewrite negb_false_iff. apply Qle_bool_iff.
Qed.

Lemma Qgtb_compat_l (x x' y : Q) : (x == x')%Q -> Qgtb x y = Qgtb x' y.
Proof.
  intros E. destruct (Qgtb x' y) eqn:H.
  - apply Qgtb_true. rewrite E. apply Qgtb_true, H.
  - apply Qgtb_false. rewrite E. apply Qgtb_false, H.
Qed.

(** The nested loops visit the pairs of the table in order. *)
Lemma scan_examples_run (table : list (string * list string)) (text : string) :
  scan_examples table text = run text (pairs table) (0%Q, "Miscellaneous").
Proof.
  unfold scan_examples, run, pairs.
  generalize (0%Q, "Miscellaneous").
  induction table as [| [general examples] table IH]; intros best; simpl.
  - reflexivity.
  - rewrite fold_left_app, IH. f_equal.
    clear IH. revert best.
    induction examples as [| example examples IHe]; intros best; simpl.
    + reflexivity.
    + apply IHe.
Qed.

Lemma run_cons (text : string) (p : string * string) (ps : list (string * string))
    (best : Q * string) :
  run text (p :: ps) best = run text ps (try_example text (fst p) (snd p) best).
Proof. reflexivity. Qed.

Lemma try_example_beats (text general example : string) (s : Q) (c : string) :
  (s < Difflib.ratio text example)%Q ->
  try_example text general example (s, c) = (Difflib.ratio text example, general).
Proof.
  intros H. unfold try_example. cbn [fst].
  apply Qgtb_true in H. rewrite H. reflexivity.
Qed.

Lemma try_example_keeps (text general example : string) (s : Q) (c : string) :
  (Difflib.ratio text example <= s)%Q ->
  try_example text general example (s, c) = (s, c).
Proof.
  intros H. unfold try_example. cbn [fst].
  apply Qgtb_false in H. rewrite H. reflexivity.
Qed.

(** A pair that does not beat the best score leaves the state alone. *)
Lemma run_stays (text : string) (ps : list (string * string)) (s : Q) (c : string) :
  (forall p, In p ps -> (score text p <= s)%Q) -> run text ps (s, c) = (s, c).
Proof.
  induction ps as [| p ps IH]; intros Hle.
  - reflexivity.
  - rewrite run_cons, try_example_keeps.
    + apply IH. intros q Hq. apply Hle. right. exact Hq.
    + apply (Hle p). left. reflexivity.
Qed.

(** First seen wins: a pair that beats the score it meets and every pair
    before it, and that no later pair beats, is the one the loop keeps. *)
Lemma run_first_max (text : string) (p : string * string)
    (post : list (string * string)) :
  (forall q, In q post -> (score text q <= score text p)%Q) ->
  forall pre s c,
    (s < score text p)%Q ->
    (forall q, In q pre -> (score text q < score text p)%Q) ->
    run text (pre ++ p :: post) (s, c) = (score text p, fst p).
Proof.
  intros Hpost. induction pre as [| q pre IH]; intros s c Hs Hpre.
  - cbn [app]. rewrite run_cons, try_example_beats by exact Hs.
    apply run_stays. exact Hpost.
  - cbn [app]. rewrite run_cons.
    assert (Hq : (score text q < score text p)%Q) by (apply Hpre; left; reflexivity).
    assert (Hrest : forall r, In r pre -> (score text r < score text p)%Q)
      by (intros r Hr; apply Hpre; right; exact Hr).
    destruct (Qlt_le_dec s (score text q)) as [Hlt | Hge].
    + rewrite try_example_beats by exact Hlt. apply IH; assumption.
    + rewrite try_example_keeps by exact Hge. apply IH; assumption.
Qed.

(** Every list of pairs either never beats [s], or has a first pair of
    greatest score above [s]. *)
Lemma first_max_exists (text : string) (ps : list (string * string)) :
  forall s : Q,
    (forall p, In p ps -> (score text p <= s)%Q)
    \/ exists pre p post,
         ps = pre ++ p :: post
         /\ (s < score text p)%Q
         /\ (forall q, In q pre -> (score text q < score text p)%Q)
         /\ (forall q, In q post -> (score text q <= score text p)%Q).
Proof.
  induction ps as [| q ps IH]; intros s.
  - left. intros p [].
  - destruct (Qlt_le_dec s (score text q)) as [Hlt | Hge].
    + right. destruct (IH (score text q)) as [Hall | (pre & p & post & E & Hp & Hpre & Hpost)].
      * exists [], q, ps. repeat split; try assumption. intros r [].
      * exists (q :: pre), p, post. subst ps. repeat split; try assumption.
        -- apply Qlt_trans with (score text q); assumption.
        -- intros r [<- | Hr]; [exact Hp | apply Hpre, Hr].
    + destruct (IH s) as [Hall | (pre & p & post & E & Hp & Hpre & Hpost)].
      * left. intros r [<- | Hr]; [exact Hge | apply Hall, Hr].
      * right. exists (q :: pre), p, post. subst ps. repeat split; try assumption.
        intros r [<- | Hr]; [| apply Hpre, Hr].
        apply Qle_lt_trans with s; assumption.
Qed.

Lemma Qmax_cases (x y : Q) : (Qmax x y = y /\ (x <= y)%Q) \/ (Qmax x y = x /\ (y < x)%Q).
Proof.
  unfold Qmax. destruct (Qle_bool x y) eqn:H.
  - left. split; [reflexivity | apply Qle_bool_iff, H].
  - right. split; [reflexivity |]. apply Qgtb_true. unfold Qgtb. rewrite H. reflexivity.
Qed.

(** The best ratio bounds every score, and is 0 or the score of a pair. *)
Lemma maxr_upper (text : string) (ps : list (string * string)) :
  forall p, In p ps -> (score text p <= maxr text ps)%Q.
Proof.
  induction ps as [| q ps IH]; intros p Hin; [destruct Hin |].
  cbn [maxr fold_right]. fold (maxr text ps).
  destruct (Qmax_cases (score text q) (maxr text ps)) as [[-> H] | [-> H]];
    destruct Hin as [<- | Hin].
  - exact H.
  - apply IH, Hin.
  - apply Qle_refl.
  - apply Qle_trans with (maxr text ps); [apply IH, Hin | apply Qlt_le_weak, H].
Qed.

Lemma maxr_attained (text : string) (ps : list (string * string)) :
  maxr text ps = 0%Q \/ exists p, In p ps /\ maxr text ps = score text p.
Proof.
  induction ps as [| q ps IH]; [left; reflexivity |].
  cbn [maxr fold_right]. fold (maxr text ps).
  destruct (Qmax_cases (score text q) (maxr text ps)) as [[-> H] | [-> H]].
  - destruct IH as [E | (p & Hin & E)]; [left; exact E |].
    right. exists p. split; [right; exact Hin | exact E].
  - right. exists q. split; [left; reflexivity | reflexivity].
Qed.

(** At a first pair of greatest score the best ratio is that score. *)
Lemma maxr_first_max (text : string) (pre post : list (string * string))
    (p : string * string) :
  (0 < score text p)%Q ->
  (forall q, In q pre -> (score text q < score text p)%Q) ->
  (forall q, In q post -> (score text q <= score text p)%Q) ->
  (maxr text (pre ++ p :: post) == score text p)%Q.
Proof.
  intros H0 Hpre Hpost. apply Qle_antisym.
  - destruct (maxr_attained text (pre ++ p :: post)) as [-> | (q & Hin & ->)].
    + apply Qlt_le_weak, H0.
    + apply in_app_or in Hin. destruct Hin as [Hin | [<- | Hin]].
      * apply Qlt_le_weak, Hpre, Hin.
      * apply Qle_refl.
      * apply Hpost, Hin.
  - apply maxr_upper. apply in_or_app. right. left. reflexivity.
Qed.

Lemma find_first_max (text : string) (pre post : list (string * string))
    (p : string * string) (r : Q) :
  (r == score text p)%Q ->
  (forall q, In q pre -> (score text q < score text p)%Q) ->
  find (fun q => Qeq_bool (score text q) r) (pre ++ p :: post) = Some p.
Proof.
  intros E Hpre. induction pre as [| q pre IH]; cbn [app find].
  - replace (Qeq_bool (score text p) r) with true; [reflexivity |].
    symmetry. apply Qeq_bool_iff. symmetry. exact E.
  - replace (Qeq_bool (score text q) r) with false.
    + apply IH. intros x Hx. apply Hpre. right. exact Hx.
    + symmetry. apply not_true_iff_false. intros H. apply Qeq_bool_iff in H.
      apply (Qlt_irrefl (score text p)). rewrite <- E at 1. rewrite <- H.
      apply Hpre. left. reflexivity.
Qed.

(** What the loop leaves behind, in the words of the specification. *)
Lemma scan_examples_outcome (table : list (string * list string)) (text : string) :
  (scan_examples table text = (0%Q, "Miscellaneous")
   /\ (best_ratio table text <= 0)%Q)
  \/ exists p,
       first_best table text = Some p
       /\ (best_ratio table text == score text p)%Q
       /\ (0 < score text p)%Q
       /\ scan_examples table text = (score text p, fst p).
Proof.
  rewrite scan_examples_run. unfold first_best, best_ratio.
  destruct (first_max_exists text (pairs table) 0%Q)
    as [Hall | (pre & p & post & E & Hp & Hpre & Hpost)].
  - left. split; [apply run_stays, Hall |].
    destruct (maxr_attained text (pairs table)) as [-> | (q & Hin & ->)].
    + apply Qle_refl.
    + apply Hall, Hin.
  - right. exists p. rewrite E.
    pose proof (maxr_first_max text pre post p Hp Hpre Hpost) as Hmax.
    repeat split.
    + apply find_first_max; assumption.
    + exact Hmax.
    + exact Hp.
    + apply run_first_max; assumption.
Qed.

Lemma threshold_pos : (0 < threshold)%Q.
Proof. reflexivity. Qed.

(** The code refines the specification's matcher: [None] is spelled
    ["Miscellaneous"]. *)
Lemma similarity_lookup_spec (table : list (string * list string)) (raw : string) :
  similarity_lookup table raw =
  match match_spec table raw with
  | Some label => label
  | None => "Miscellaneous"
  end.
Proof.
  unfold similarity_lookup, match_spec.
  set (text := PyStr.strip (PyStr.lower raw)).
  destruct (scan_examples_outcome table text) as [[-> Hle] | (p & -> & E & Hp & ->)].
  - replace (Qgtb 0 threshold) with false by reflexivity.
    replace (Qgtb (best_ratio table text) threshold) with false; [reflexivity |].
    symmetry. apply Qgtb_false. apply Qle_trans with 0%Q; [exact Hle |].
    apply Qlt_le_weak, threshold_pos.
  - rewrite (Qgtb_compat_l _ _ _ E).
    destruct (Qgtb (score text p) threshold); reflexivity.
Qed.

Lemma first_best_in (table : list (string * list string)) (text : string)
    (p : string * string) :
  first_best table text = Some p -> In p (pairs table).
Proof. intros H. apply find_some in H. apply H. Qed.

Lemma pairs_label_in (table : list (string * list string)) (p : string * string) :
  In p (pairs table) -> In (fst p) (map fst table).
Proof.
  unfold pairs. rewrite in_flat_map. intros (entry & Hentry & Hp).
  apply in_map_iff in Hp. destruct Hp as (example & <- & _).
  cbn [fst]. apply in_map. exact Hentry.
Qed.

(** Above the threshold there is a first best pair, and its label is the
    answer. *)
Lemma first_best_exists (table : list (string * list string)) (text : string) :
  (threshold < best_ratio table text)%Q -> exists p, first_best table text = Some p.
Proof.
  intros H. destruct (scan_examples_outcome table text) as [[_ Hle] | (p & Hp & _)].
  - exfalso. apply (Qlt_irrefl threshold).
    apply Qlt_le_trans with (best_ratio table text); [exact H |].
    apply Qle_trans with 0%Q; [exact Hle | apply Qlt_le_weak, threshold_pos].
  - exists p. exact Hp.
Qed.

Lemma similarity_lookup_match (table : list (string * list string)) (raw : string)
    (p : string * string) :
  (threshold < best_ratio table (PyStr.strip (PyStr.lower raw)))%Q ->
  first_best table (PyStr.strip (PyStr.lower raw)) = Some p ->
  similarity_lookup table raw = fst p.
Proof.
  intros H Hp. rewrite similarity_lookup_spec. unfold match_spec.
  apply Qgtb_true in H. rewrite H, Hp. reflexivity.
Qed.

Lemma similarity_lookup_nomatch (table : list (string * list string)) (raw : string) :
  (best_ratio table (PyStr.strip (PyStr.lower raw)) <= threshold)%Q ->
  similarity_lookup table raw = "Miscellaneous".
Proof.
  intros H. rewrite similarity_lookup_spec. unfold match_spec.
  apply Qgtb_false in H. rewrite H. reflexivity.
Qed.

Lemma similarity_lookup_above (table : list (string * list string)) (raw : string) :
  similarity_lookup table raw <> "Miscellaneous" ->
  (threshold < best_ratio table (PyStr.strip (PyStr.lower raw)))%Q.
Proof.
  intros H.
  destruct (Qlt_le_dec threshold (best_ratio table (PyStr.strip (PyStr.lower raw))))
    as [Hlt | Hle]; [exact Hlt |].
  exfalso. apply H. apply similarity_lookup_nomatch. exact Hle.
Qed.

(** The matcher answers with a key of its table or with the default. *)
Lemma similarity_lookup_canonical (table : list (string * list string)) (raw : string) :
  In (similarity_lookup table raw) (canonical_labels table).
Proof.
  rewrite similarity_lookup_spec. unfold match_spec, canonical_labels.
  apply in_or_app.
  destruct (Qgtb _ threshold); [| right; left; reflexivity].
  destruct (first_best table _) as [p |] eqn:Hp; [| right; left; reflexivity].
  left. apply pairs_label_in. apply first_best_in in Hp. exact Hp.
Qed.

(** The three parts of the decision rule, for any table. *)
Lemma decision_rule (table : list (string * list string)) (raw : string) :
  let text := PyStr.strip (PyStr.lower raw) in
  (similarity_lookup table raw <> "Miscellaneous" ->
   (threshold < best_ratio table text)%Q)
  /\ ((best_ratio table text == threshold)%Q ->
      similarity_lookup table raw = "Miscellaneous")
  /\ ((threshold < best_ratio table text)%Q ->
      exists p, first_best table text = Some p
                /\ (score text p == best_ratio table text)%Q
                /\ similarity_lookup table raw = fst p).
Proof.
  intros text. split; [| split].
  - apply similarity_lookup_above.
  - intros E. apply similarity_lookup_nomatch. fold text. rewrite E. apply Qle_refl.
  - intros H. destruct (first_best_exists table text H) as [p Hp].
    exists p. split; [exact Hp |]. split.
    + unfold first_best in Hp. apply find_some in Hp.
      apply Qeq_bool_iff. apply Hp.
    + apply similarity_lookup_match; assumption.
Qed.

End NlpFacts.

(** ** Doubles and fractions give the same answers *)

Module DoubleFacts.

Import Double.

Lemma grid_in (n m len : nat) : len <= n -> m <= len -> In (m, len) (grid n).
Proof.
  intros Hlen Hm. unfold grid. apply in_flat_map. exists len. split.
  - apply in_seq. lia.
  - apply in_map with (f := fun m => (m, len)). apply in_seq. lia.
Qed.

Lemma all_pairs_spec {A : Type} (P : A -> A -> bool) (l : list A) :
  all_pairs P l = true ->
  forall x y, In x l -> In y l -> P x y = true.
Proof.
  unfold all_pairs. intros H x y Hx Hy. rewrite forallb_forall in H.
  specialize (H x Hx). rewrite forallb_forall in H. exact (H y Hy).
Qed.

(** Checked by evaluation over the whole grid. *)
Lemma same_threshold_grid :
  forall x, In x (map both (grid bound)) -> same_threshold x = true.
Proof. apply forallb_forall. vm_compute. reflexivity. Qed.

Lemma same_order_grid :
  forall x y, In x (map both (grid bound)) -> In y (map both (grid bound)) ->
              same_order x y = true.
Proof. apply all_pairs_spec. vm_compute. reflexivity. Qed.

Lemma threshold_agrees (m len : nat) :
  len <= bound -> m <= len ->
  gtb (calculate_ratio m len) literal_0_8
  = Nlp.Qgtb (Difflib.calculate_ratio m len) Nlp.threshold.
Proof.
  intros Hlen Hm. apply eqb_prop.
  apply (same_threshold_grid (both (m, len))).
  apply in_map, grid_in; assumption.
Qed.

Lemma order_agrees (m1 len1 m2 len2 : nat) :
  len1 <= bound -> m1 <= len1 -> len2 <= bound -> m2 <= len2 ->
  gtb (calculate_ratio m1 len1) (calculate_ratio m2 len2)
  = Nlp.Qgtb (Difflib.calculate_ratio m1 len1) (Difflib.calculate_ratio m2 len2).
Proof.
  intros Hlen1 Hm1 Hlen2 Hm2. apply eqb_prop.
  apply (same_order_grid (both (m1, len1)) (both (m2, len2)));
    apply in_map, grid_in; assumption.
Qed.

Lemma length_list_ascii (s : string) :
  List.length (list_ascii_of_string s) = String.length s.
Proof.
  induction s as [| c s IH]; [reflexivity |].
  cbn [list_ascii_of_string List.length String.length]. rewrite IH. reflexivity.
Qed.

Lemma double_scan_examples_run (table : list (string * list string)) (text : string) :
  scan_examples table text = run text (Nlp.pairs table) (of_nat 0, "Miscellaneous").
Proof.
  unfold scan_examples, run, Nlp.pairs.
  generalize (of_nat 0, "Miscellaneous").
  induction table as [| [general examples] table IH]; intros best; simpl.
  - reflexivity.
  - rewrite fold_left_app, IH. f_equal.
    clear IH. revert best.
    induction examples as [| example examples IHe]; intros best; simpl.
    + reflexivity.
    + apply IHe.
Qed.

(** One turn of the loop keeps the two states related. *)
Lemma try_example_related (text general example : string)
    (d : spec_float * string) (q : Q * string) :
  String.length text + String.length example <= bound ->
  related d q ->
  related (try_example text general example d)
          (Nlp.try_example text general example q).
Proof.
  intros Hlen (Hlabel & m & len & Hl & Hm & Ed & Eq).
  unfold try_example, Nlp.try_example, ratio, Difflib.ratio.
  set (M := Difflib.matches (list_ascii_of_string text) (list_ascii_of_string example)).
  set (L := List.length (list_ascii_of_string text)
            + List.length (list_ascii_of_string example)).
  assert (HL : L <= bound) by (unfold L; rewrite !length_list_ascii; exact Hlen).
  assert (HM : M <= L).
  { unfold M, L.
    pose proof (DifflibFacts.matches_le (list_ascii_of_string text)
                  (list_ascii_of_string example)). lia. }
  rewrite Ed, Eq, (order_agrees M L m len HL HM Hl Hm).
  destruct (Nlp.Qgtb (Difflib.calculate_ratio M L) (Difflib.calculate_ratio m len)).
  - split; [reflexivity |]. exists M, L. auto.
  - split; [exact Hlabel |]. exists m, len. auto.
Qed.

Lemma run_related (text : string) (ps : list (string * string)) :
  (forall p, In p ps -> String.length text + String.length (snd p) <= bound) ->
  forall d q, related d q -> related (run text ps d) (Nlp.run text ps q).
Proof.
  induction ps as [| p ps IH]; intros Hlen d q Hrel.
  - exact Hrel.
  - cbn [run Nlp.run fold_left]. apply IH.
    + intros r Hr. apply Hlen. right. exact Hr.
    + apply try_example_related; [apply Hlen; left; reflexivity | exact Hrel].
Qed.

(** On every input short enough for the checked range, the matcher on
    doubles and the matcher on fractions return the same label. *)
Lemma similarity_lookup_double (table : list (string * list string)) (raw : string) :
  (forall p, In p (Nlp.pairs table) ->
             String.length (PyStr.strip (PyStr.lower raw)) + String.length (snd p)
             <= bound) ->
  similarity_lookup table raw = Nlp.similarity_lookup table raw.
Proof.
  intros Hlen. unfold similarity_lookup, Nlp.similarity_lookup.
  rewrite double_scan_examples_run, NlpFacts.scan_examples_run.
  assert (Hinit : related (of_nat 0, "Miscellaneous") (0%Q, "Miscellaneous")).
  { split; [reflexivity |]. exists 0, 1. unfold bound. repeat split; lia. }
  pose proof (run_related _ _ Hlen _ _ Hinit) as (Hlabel & m & len & Hl & Hm & Ed & Eq).
  destruct (run _ _ _) as [d c]. destruct (Nlp.run _ _ _) as [q c'].
  cbn [fst snd] in *. subst. rewrite threshold_agrees by assumption. reflexivity.
Qed.

(** The two tables of the program: examples have at most 10 characters, so
    the answers agree for every input of at most 38 characters (after
    [lower] and [strip]). *)
Lemma matchers_double (raw : string) :
  String.length (PyStr.strip (PyStr.lower raw)) <= 38 ->
  similarity_lookup Nlp.CATEGORY_EXAMPLES raw
  = Nlp.get_general_category_from_similarity raw
  /\ similarity_lookup Nlp.PAYMENT_EXAMPLES raw
     = Nlp.get_general_payment_method raw.
Proof.
  intros Hlen. split; apply similarity_lookup_double; intros p Hp; cbn in Hp;
    repeat (destruct Hp as [<- | Hp]; [unfold bound; cbn [snd String.length]; lia |]);
    destruct Hp.
Qed.

End DoubleFacts.

(** * The claims *)

Import Nlp NlpFacts.

(** C3. The matcher returns a label other than ["Miscellaneous"] only if
    the best similarity ratio over all (canonical label, example) pairs is
    strictly greater than 0.8; a best ratio of exactly 0.8 resolves to
    ["Miscellaneous"]; and a best ratio above 0.8 resolves to the canonical
    label of the (first) pair that has it.  This holds for the category
    matcher and for the payment-method matcher. *)
Theorem threshold_rule (raw : string) :
  let text := PyStr.strip (PyStr.lower raw) in
  ((get_general_category_from_similarity raw <> "Miscellaneous" ->
    (8 # 10 < best_ratio CATEGORY_EXAMPLES text)%Q)
   /\ ((best_ratio CATEGORY_EXAMPLES text == 8 # 10)%Q ->
       get_general_category_from_similarity raw = "Miscellaneous")
   /\ ((8 # 10 < best_ratio CATEGORY_EXAMPLES text)%Q ->
       exists p, first_best CATEGORY_EXAMPLES text = Some p
                 /\ (score text p == best_ratio CATEGORY_EXAMPLES text)%Q
                 /\ get_general_category_from_similarity raw = fst p))
  /\
  ((get_general_payment_method raw <> "Miscellaneous" ->
    (8 # 10 < best_ratio PAYMENT_EXAMPLES text)%Q)
   /\ ((best_ratio PAYMENT_EXAMPLES text == 8 # 10)%Q ->
       get_general_payment_method raw = "Miscellaneous")
   /\ ((8 # 10 < best_ratio PAYMENT_EXAMPLES text)%Q ->
       exists p, first_best PAYMENT_EXAMPLES text = Some p
                 /\ (score text p == best_ratio PAYMENT_EXAMPLES text)%Q
                 /\ get_general_payment_method raw = fst p)).
Proof.
  split.
  - exact (decision_rule CATEGORY_EXAMPLES raw).
  - exact (decision_rule PAYMENT_EXAMPLES raw).
Qed.

(** The rule at work: ["bu"] scores exactly 0.8 (against "bus") and stays
    unmatched, ["lunc"] scores 8/9 (against "lunch") and is matched, and
    ["cas"] scores 6/7 (against "cash"). *)
Lemma threshold_rule_witness :
  get_general_category_from_similarity "bu" = "Miscellaneous"
  /\ (8 # 10 < best_ratio CATEGORY_EXAMPLES "lunc")%Q
  /\ (exists p, first_best CATEGORY_EXAMPLES "lunc" = Some p
                /\ (score "lunc" p == best_ratio CATEGORY_EXAMPLES "lunc")%Q
                /\ get_general_category_from_similarity "lunc" = fst p)
  /\ (8 # 10 < best_ratio PAYMENT_EXAMPLES "cas")%Q.
Proof.
  split; [| split; [| split]].
  - apply (proj1 (proj2 (proj1 (threshold_rule "bu")))). vm_compute. reflexivity.
  - apply (proj1 (proj1 (threshold_rule "lunc"))). vm_compute. discriminate.
  - apply (proj2 (proj2 (proj1 (threshold_rule "lunc")))). vm_compute. reflexivity.
  - apply (proj1 (proj2 (threshold_rule "cas"))). vm_compute. discriminate.
Defined.



(** ** The matchers on the state of the process *)

Module RuntimeFacts.

Import Runtime.

(** A loop whose body neither reads nor writes the state is a fold, and
    leaves the state as it found it. *)
Lemma for_each_pure {A S : Type} (step : A -> S -> S) (items : list A) :
  forall (state : S) (w : World),
    for_each items (fun x state => ret (step x state)) state w
    = (fold_left (fun state x => step x state) items state, w).
Proof.
  induction items as [| x rest IH]; intros state w; [reflexivity |].
  cbn [for_each fold_left]. unfold bind at 1. unfold ret at 1. apply IH.
Qed.

Lemma for_each_nested {A B S : Type} (inner : A -> list B) (step : A -> B -> S -> S)
    (items : list A) :
  forall (state : S) (w : World),
    for_each items
      (fun x state => for_each (inner x) (fun y state => ret (step x y state)) state)
      state w
    = (fold_left
         (fun state x => fold_left (fun state y => step x y state) (inner x) state)
         items state, w).
Proof.
  induction items as [| x rest IH]; intros state w; [reflexivity |].
  cbn [for_each fold_left]. unfold bind at 1.
  rewrite (for_each_pure (step x) (inner x)). apply IH.
Qed.

(** The loops of the running matcher are the loops of [Nlp.scan_examples]
    on the table the state holds, and the state is not touched. *)
Lemma run_category (raw : string) (w : World) :
  get_general_category_from_similarity raw w
  = (Nlp.similarity_lookup (category_examples w) raw, w).
Proof.
  unfold get_general_category_from_similarity, read_CATEGORY_EXAMPLES.
  unfold bind at 1.
  unfold bind.
  rewrite (for_each_nested (fun entry => snd entry)
             (fun entry example best =>
                if Nlp.Qgtb (Difflib.ratio (PyStr.strip (PyStr.lower raw)) example)
                            (fst best)
                then (Difflib.ratio (PyStr.strip (PyStr.lower raw)) example, fst entry)
                else best)).
  unfold ret, Nlp.similarity_lookup, Nlp.scan_examples, Nlp.try_example.
  match goal with |- context [fold_left ?f ?l ?i] => destruct (fold_left f l i) end.
  reflexivity.
Qed.

Lemma run_payment (raw : string) (w : World) :
  get_general_payment_method raw w
  = (Nlp.similarity_lookup (payment_examples w) raw, w).
Proof.
  unfold get_general_payment_method, read_PAYMENT_EXAMPLES.
  unfold bind.
  rewrite (for_each_nested (fun entry => snd entry)
             (fun entry example best =>
                if Nlp.Qgtb (Difflib.ratio (PyStr.strip (PyStr.lower raw)) example)
                            (fst best)
                then (Difflib.ratio (PyStr.strip (PyStr.lower raw)) example, fst entry)
                else best)).
  unfold ret, Nlp.similarity_lookup, Nlp.scan_examples, Nlp.try_example.
  match goal with |- context [fold_left ?f ?l ?i] => destruct (fold_left f l i) end.
  reflexivity.
Qed.

End RuntimeFacts.

(** C7. The matcher is a deterministic pure function of its input string
    and of the example set.  Run on the state of the process (the two
    tables, the collection, what was printed), a call of either matcher
    leaves the state exactly as it found it and its answer is the one the
    specification's matcher [match_spec] gives for the input and the table
    then in place ("no match" read as "Miscellaneous").  Hence two calls
    with the same input, made in any two states that hold the same table
    (whatever was stored or printed in between), return the same label. *)
Theorem matcher_pure_and_deterministic (raw : string) (w1 w2 : Runtime.World) :
  (Runtime.get_general_category_from_similarity raw w1
   = (match match_spec (Runtime.category_examples w1) raw with
      | Some label => label
      | None => "Miscellaneous"
      end, w1)
   /\ Runtime.get_general_payment_method raw w1
      = (match match_spec (Runtime.payment_examples w1) raw with
         | Some label => label
         | None => "Miscellaneous"
         end, w1))
  /\ (Runtime.category_examples w1 = Runtime.category_examples w2 ->
      fst (Runtime.get_general_category_from_similarity raw w1)
      = fst (Runtime.get_general_category_from_similarity raw w2))
  /\ (Runtime.payment_examples w1 = Runtime.payment_examples w2 ->
      fst (Runtime.get_general_payment_method raw w1)
      = fst (Runtime.get_general_payment_method raw w2))
  /\ (Runtime.category_examples w1 = CATEGORY_EXAMPLES ->
      fst (Runtime.get_general_category_from_similarity raw w1)
      = get_general_category_from_similarity raw)
  /\ (Runtime.payment_examples w1 = PAYMENT_EXAMPLES ->
      fst (Runtime.get_general_payment_method raw w1)
      = get_general_payment_method raw).
Proof.
  rewrite !RuntimeFacts.run_category, !RuntimeFacts.run_payment. cbn [fst].
  split; [split; rewrite similarity_lookup_spec; reflexivity |].
  split; [intros ->; reflexivity |].
  split; [intros ->; reflexivity |].
  split; intros ->; reflexivity.
Qed.

(** A call on the freshly loaded module, then an insert into the
    collection and a printed line, then the same call again: both calls
    answer "Food", and the second leaves the changed state as it is. *)
Lemma matcher_pure_and_deterministic_witness :
  fst (Runtime.get_general_category_from_similarity "Lunch "
         (Runtime.loaded []))
  = fst (Runtime.get_general_category_from_similarity "Lunch "
           (snd (Runtime.print "Expense added"
                   (snd (Runtime.insert_one
                           (Store.mkExpense "2025-05-23" 20 "Food" "lunch"
                              "Lunch at cafe" "TD Debit" "td debit")
                           (Runtime.loaded []))))))
  /\ fst (Runtime.get_general_category_from_similarity "Lunch "
           (Runtime.loaded []))
     = "Food".
Proof.
  split.
  - apply (proj1 (proj2 (matcher_pure_and_deterministic "Lunch "
                           (Runtime.loaded [])
                           (snd (Runtime.print "Expense added"
                                   (snd (Runtime.insert_one
                                           (Store.mkExpense "2025-05-23" 20 "Food"
                                              "lunch" "Lunch at cafe" "TD Debit"
                                              "td debit")
                                           (Runtime.loaded [])))))))).
    reflexivity.
  - rewrite (proj1 (proj2 (proj2 (proj2 (matcher_pure_and_deterministic "Lunch "
                                           (Runtime.loaded []) (Runtime.loaded [])))))
               eq_refl).
    vm_compute. reflexivity.
Defined.

(** ** The empty input *)

Lemma ratio_empty_input (example : string) :
  example <> "" ->
  Difflib.ratio "" example = (0 # Pos.of_nat (String.length example))%Q.
Proof.
  intros Hne. unfold Difflib.ratio. cbn [list_ascii_of_string List.length Nat.add].
  rewrite DifflibFacts.matches_nil_l.
  destruct example as [| c example]; [congruence |].
  unfold Difflib.calculate_ratio. cbn [list_ascii_of_string List.length Nat.eqb].
  cbn [Nat.mul Z.of_nat String.length].
  replace (List.length (list_ascii_of_string example)) with (String.length example);
    [reflexivity |].
  clear Hne. induction example as [| c' example IH]; [reflexivity |].
  cbn [list_ascii_of_string List.length String.length]. rewrite IH. reflexivity.
Qed.

(** C9. The empty string scores 0 against every non-empty example, which
    is below the threshold 0.8 and below 1.0 (only against the empty
    example does it score 1.0); so for any table whose examples are all
    non-empty the matcher finds no match, and both matchers of the program
    return ["Miscellaneous"] on the empty input. *)
Theorem empty_input_no_match :
  (forall example, example <> "" ->
     (Difflib.ratio "" example == 0)%Q
     /\ (Difflib.ratio "" example < 8 # 10)%Q
     /\ (Difflib.ratio "" example < 1)%Q)
  /\ Difflib.ratio "" "" = 1%Q
  /\ (forall table raw,
        PyStr.strip (PyStr.lower raw) = "" ->
        (forall p, In p (pairs table) -> snd p <> "") ->
        similarity_lookup table raw = "Miscellaneous")
  /\ get_general_category_from_similarity "" = "Miscellaneous"
  /\ get_general_payment_method "" = "Miscellaneous".
Proof.
  split; [| split; [| split; [| split]]].
  - intros example Hne. rewrite (ratio_empty_input example Hne).
    repeat split; reflexivity.
  - reflexivity.
  - intros table raw Htext Hne. unfold similarity_lookup.
    rewrite Htext, scan_examples_run, run_stays; [reflexivity |].
    intros p Hp. unfold score. rewrite (ratio_empty_input _ (Hne p Hp)).
    discriminate.
  - vm_compute. reflexivity.
  - vm_compute. reflexivity.
Qed.

Lemma empty_input_no_match_witness :
  (Difflib.ratio "" "food" < 8 # 10)%Q
  /\ similarity_lookup CATEGORY_EXAMPLES "   " = "Miscellaneous".
Proof.
  split.
  - apply (proj1 empty_input_no_match "food"). discriminate.
  - apply (proj1 (proj2 (proj2 empty_input_no_match)) CATEGORY_EXAMPLES "   ").
    + reflexivity.
    + intros p Hp. cbn in Hp.
      repeat (destruct Hp as [<- | Hp]; [discriminate |]). destruct Hp.
Defined.

(** C8. A canonical label whose lower-cased form is one of its own
    examples is returned unchanged when it is fed to the matcher as raw
    input: this covers "Food" in the category table, and "TD Debit" and
    "Cash" in the payment table.  In particular the matcher maps "Food" to
    "Food". *)
Theorem canonical_label_returns_itself :
  (forall general examples,
     In (general, examples) CATEGORY_EXAMPLES ->
     In (PyStr.lower general) examples ->
     get_general_category_from_similarity general = general)
  /\ (forall general examples,
        In (general, examples) PAYMENT_EXAMPLES ->
        In (PyStr.lower general) examples ->
        get_general_payment_method general = general)
  /\ get_general_category_from_similarity "Food" = "Food".
Proof.
  split; [| split].
  - intros general examples Hin Hl. cbn in Hin.
    repeat (destruct Hin as [Hin | Hin];
            [injection Hin as <- <-;
             first [ vm_compute; reflexivity
                   | exfalso; vm_compute in Hl; intuition discriminate ] |]).
    destruct Hin.
  - intros general examples Hin Hl. cbn in Hin.
    repeat (destruct Hin as [Hin | Hin];
            [injection Hin as <- <-;
             first [ vm_compute; reflexivity
                   | exfalso; vm_compute in Hl; intuition discriminate ] |]).
    destruct Hin.
  - vm_compute. reflexivity.
Qed.

Lemma canonical_label_returns_itself_witness :
  get_general_category_from_similarity "Food" = "Food"
  /\ get_general_payment_method "TD Debit" = "TD Debit"
  /\ get_general_payment_method "Cash" = "Cash".
Proof.
  split; [| split].
  - apply (proj1 canonical_label_returns_itself "Food"
             ["drink"; "lunch"; "dinner"; "groceries"; "food"]).
    + left. reflexivity.
    + vm_compute. tauto.
  - apply (proj1 (proj2 canonical_label_returns_itself) "TD Debit" ["debit"; "td debit"]).
    + left. reflexivity.
    + vm_compute. tauto.
  - apply (proj1 (proj2 canonical_label_returns_itself) "Cash" ["cash"]).
    + right. left. reflexivity.
    + vm_compute. tauto.
Defined.

(** C2.  What the category matcher does on the three inputs of scenario A:
    "lunch" is matched to "Food" and "xyz123" is not matched, but "coffe"
    is not matched either: no example scores more than 0.4 against it (the
    best are "movie" and "other"; the best Food example, "food", scores
    2/9), so the answer is ["Miscellaneous"], not "Food". *)
Theorem scenario_A_coffe_unmatched :
  get_general_category_from_similarity "lunch" = "Food"
  /\ get_general_category_from_similarity "xyz123" = "Miscellaneous"
  /\ get_general_category_from_similarity "coffe" = "Miscellaneous"
  /\ (best_ratio CATEGORY_EXAMPLES "coffe" == 4 # 10)%Q
  /\ map (Difflib.ratio "coffe") ["drink"; "lunch"; "dinner"; "groceries"; "food"]
     = [0 # 10; 2 # 10; 2 # 11; 4 # 14; 2 # 9]%Q.
Proof.
  repeat split; vm_compute; reflexivity.
Qed.

(** ** The normalisation pipeline *)

Module PipelineFacts.

Import Database.

Section Pipeline.

Context {Features : Type}.
Implicit Types (model : option (MultinomialNB Features))
               (vectorizer : option (TfidfVectorizer Features)).

(** A label other than the default ends the pipeline at its first stage. *)
Lemma category_first_stage (description raw : string) model vectorizer :
  get_general_category_from_similarity raw <> "Miscellaneous" ->
  predict_and_refine_category description raw model vectorizer
  = (get_general_category_from_similarity raw, []).
Proof.
  intros H. unfold predict_and_refine_category.
  apply String.eqb_neq in H. rewrite H. reflexivity.
Qed.

Lemma payment_first_stage (description raw : string) model vectorizer :
  get_general_payment_method raw <> "Miscellaneous" ->
  predict_and_refine_payment description raw model vectorizer
  = (get_general_payment_method raw, []).
Proof.
  intros H. unfold predict_and_refine_payment.
  apply String.eqb_neq in H. rewrite H. reflexivity.
Qed.

(** The default label sends the pipeline to the classifier, when there is
    one, and the prediction is returned as it is. *)
Lemma category_second_stage (description raw : string)
    (m : MultinomialNB Features) (v : TfidfVectorizer Features) :
  get_general_category_from_similarity raw = "Miscellaneous" ->
  predict_and_refine_category description raw (Some m) (Some v)
  = (predict m (transform v description),
     [Transform description; Predict (transform v description)]).
Proof.
  intros H. unfold predict_and_refine_category. rewrite H. reflexivity.
Qed.

Lemma payment_second_stage (description raw : string)
    (m : MultinomialNB Features) (v : TfidfVectorizer Features) :
  get_general_payment_method raw = "Miscellaneous" ->
  predict_and_refine_payment description raw (Some m) (Some v)
  = (predict m (transform v description),
     [Transform description; Predict (transform v description)]).
Proof.
  intros H. unfold predict_and_refine_payment. rewrite H. reflexivity.
Qed.

(** Without a model or without a vectorizer the pipeline is the matcher. *)
Lemma category_no_classifier (description raw : string) model vectorizer :
  model = None \/ vectorizer = None ->
  predict_and_refine_category description raw model vectorizer
  = (get_general_category_from_similarity raw, []).
Proof.
  intros Hnone. unfold predict_and_refine_category.
  destruct (String.eqb_spec (get_general_category_from_similarity raw) "Miscellaneous")
    as [E | N]; cbn [negb]; [| reflexivity].
  rewrite E. destruct Hnone as [-> | ->]; [| destruct model]; reflexivity.
Qed.

Lemma payment_no_classifier (description raw : string) model vectorizer :
  model = None \/ vectorizer = None ->
  predict_and_refine_payment description raw model vectorizer
  = (get_general_payment_method raw, []).
Proof.
  intros Hnone. unfold predict_and_refine_payment.
  destruct (String.eqb_spec (get_general_payment_method raw) "Miscellaneous")
    as [E | N]; cbn [negb]; [| reflexivity].
  rewrite E. destruct Hnone as [-> | ->]; [| destruct model]; reflexivity.
Qed.

Lemma truthy_both {A B} (x : option A) (y : option B) :
  truthy x && truthy y = false -> x = None \/ y = None.
Proof. destruct x, y; cbn; intros H; auto; discriminate. Qed.

(** The guard [add_expense_db] puts in front of each pipeline call changes
    nothing: value and classifier calls are those of the pipeline. *)
Lemma guarded_category (description category : string) model vectorizer :
  (if String.eqb (get_general_category_from_similarity category) "Miscellaneous"
      && truthy model && truthy vectorizer
   then predict_and_refine_category description category model vectorizer
   else ret (get_general_category_from_similarity category))
  = predict_and_refine_category description category model vectorizer.
Proof.
  destruct (String.eqb_spec (get_general_category_from_similarity category) "Miscellaneous")
    as [E | N]; cbn [andb].
  - destruct (truthy model && truthy vectorizer) eqn:T; [reflexivity |].
    symmetry. apply category_no_classifier, truthy_both, T.
  - symmetry. apply category_first_stage, N.
Qed.

Lemma guarded_payment (description payment_method : string) model vectorizer :
  (if String.eqb (get_general_payment_method payment_method) "Miscellaneous"
      && truthy model && truthy vectorizer
   then predict_and_refine_payment description payment_method model vectorizer
   else ret (get_general_payment_method payment_method))
  = predict_and_refine_payment description payment_method model vectorizer.
Proof.
  destruct (String.eqb_spec (get_general_payment_method payment_method) "Miscellaneous")
    as [E | N]; cbn [andb].
  - destruct (truthy model && truthy vectorizer) eqn:T; [reflexivity |].
    symmetry. apply payment_no_classifier, truthy_both, T.
  - symmetry. apply payment_first_stage, N.
Qed.

End Pipeline.

(** No key of either table is the empty string, nor is the default. *)
Lemma category_labels_nonempty (label : string) :
  In label (canonical_labels CATEGORY_EXAMPLES) -> label <> "".
Proof.
  intros H. cbn in H.
  repeat (destruct H as [<- | H]; [discriminate |]). destruct H.
Qed.

Lemma payment_labels_nonempty (label : string) :
  In label (canonical_labels PAYMENT_EXAMPLES) -> label <> "".
Proof.
  intros H. cbn in H.
  repeat (destruct H as [<- | H]; [discriminate |]). destruct H.
Qed.

(** No payment example belongs to the default label. *)
Lemma payment_pairs_not_default (p : string * string) :
  In p (pairs PAYMENT_EXAMPLES) -> fst p <> "Miscellaneous".
Proof.
  intros H. cbn in H.
  repeat (destruct H as [<- | H]; [discriminate |]). destruct H.
Qed.

End PipelineFacts.

Import Database PipelineFacts.

(** C1, as stated, fails for categories: "other" is matched (ratio 1.0, above
    0.8) to the canonical label "Miscellaneous", yet with a trained
    classifier at hand the pipeline consults it and returns its prediction.
    So it is not true that every match is the final label. *)
Lemma match_on_miscellaneous_counterexample :
  first_best CATEGORY_EXAMPLES (PyStr.strip (PyStr.lower "other"))
    = Some ("Miscellaneous", "other")
  /\ (8 # 10 < best_ratio CATEGORY_EXAMPLES (PyStr.strip (PyStr.lower "other")))%Q
  /\ predict_and_refine_category "Lunch at cafe" "other"
       (Some (Build_MultinomialNB (fun _ : unit => "Food")))
       (Some (Build_TfidfVectorizer (fun _ : string => tt)))
     = ("Food", [Transform "Lunch at cafe"; Predict tt])
  /\ ~ (forall (description raw : string)
               (model : MultinomialNB unit) (vectorizer : TfidfVectorizer unit)
               (p : string * string),
          (8 # 10 < best_ratio CATEGORY_EXAMPLES (PyStr.strip (PyStr.lower raw)))%Q ->
          first_best CATEGORY_EXAMPLES (PyStr.strip (PyStr.lower raw)) = Some p ->
          predict_and_refine_category description raw (Some model) (Some vectorizer)
          = (fst p, [])).
Proof.
  split; [| split; [| split]].
  - vm_compute. reflexivity.
  - vm_compute. reflexivity.
  - vm_compute. reflexivity.
  - intros H.
    specialize (H "Lunch at cafe" "other"
                  (Build_MultinomialNB (fun _ : unit => "Food"))
                  (Build_TfidfVectorizer (fun _ : string => tt))
                  ("Miscellaneous", "other")).
    assert (Hbad : predict_and_refine_category "Lunch at cafe" "other"
                     (Some (Build_MultinomialNB (fun _ : unit => "Food")))
                     (Some (Build_TfidfVectorizer (fun _ : string => tt)))
                   = ("Miscellaneous", [])).
    { apply H; vm_compute; reflexivity. }
    vm_compute in Hbad. discriminate Hbad.
Qed.

(** C1, amended.  If the matcher finds a match for the raw label (a first
    best pair whose ratio is above 0.8) and the matched canonical label is
    not "Miscellaneous", then the pipeline returns the matched label and
    makes no call to the classifier, whatever description, model and
    vectorizer it is given.  For payment methods no example belongs to
    "Miscellaneous", so there every match is final. *)
Theorem similarity_match_is_final {Features : Type} (description raw : string)
    (model : option (MultinomialNB Features))
    (vectorizer : option (TfidfVectorizer Features)) (p : string * string) :
  let text := PyStr.strip (PyStr.lower raw) in
  ((8 # 10 < best_ratio CATEGORY_EXAMPLES text)%Q ->
   first_best CATEGORY_EXAMPLES text = Some p ->
   fst p <> "Miscellaneous" ->
   predict_and_refine_category description raw model vectorizer = (fst p, []))
  /\ ((8 # 10 < best_ratio PAYMENT_EXAMPLES text)%Q ->
      first_best PAYMENT_EXAMPLES text = Some p ->
      predict_and_refine_payment description raw model vectorizer = (fst p, [])).
Proof.
  intros text. split.
  - intros Hbest Hp Hne.
    pose proof (similarity_lookup_match CATEGORY_EXAMPLES raw p Hbest Hp) as E.
    rewrite <- category_lookup in E.
    rewrite <- E. apply category_first_stage. rewrite E. exact Hne.
  - intros Hbest Hp.
    pose proof (similarity_lookup_match PAYMENT_EXAMPLES raw p Hbest Hp) as E.
    rewrite <- payment_lookup in E.
    rewrite <- E. apply payment_first_stage. rewrite E.
    apply payment_pairs_not_default. apply (first_best_in _ _ _ Hp).
Qed.

(** "lunch" with a classifier that would say "Transport": the answer is
    "Food" and the classifier is not called; likewise "Td debit". *)
Lemma similarity_match_is_final_witness :
  predict_and_refine_category "Bus fare" "lunch"
    (Some (Build_MultinomialNB (fun _ : unit => "Transport")))
    (Some (Build_TfidfVectorizer (fun _ : string => tt)))
  = ("Food", [])
  /\ predict_and_refine_payment "Bus fare" "Td debit"
       (Some (Build_MultinomialNB (fun _ : unit => "Cash")))
       (Some (Build_TfidfVectorizer (fun _ : string => tt)))
     = ("TD Debit", []).
Proof.
  split.
  - apply (proj1 (similarity_match_is_final "Bus fare" "lunch"
                    (Some (Build_MultinomialNB (fun _ : unit => "Transport")))
                    (Some (Build_TfidfVectorizer (fun _ : string => tt)))
                    ("Food", "lunch"))).
    + vm_compute. reflexivity.
    + vm_compute. reflexivity.
    + discriminate.
  - apply (proj2 (similarity_match_is_final "Bus fare" "Td debit"
                    (Some (Build_MultinomialNB (fun _ : unit => "Cash")))
                    (Some (Build_TfidfVectorizer (fun _ : string => tt)))
                    ("TD Debit", "td debit"))).
    + vm_compute. reflexivity.
    + vm_compute. reflexivity.
Defined.

(** C4, as stated, fails: the prediction of the classifier is returned
    unchecked, so a model that has learnt the label "Groceries" makes the
    pipeline return "Groceries", which is no key of the category table. *)
Lemma normalize_label_set_counterexample :
  predict_and_refine_category "Weekly shop" "xyz123"
    (Some (Build_MultinomialNB (fun _ : unit => "Groceries")))
    (Some (Build_TfidfVectorizer (fun _ : string => tt)))
  = ("Groceries", [Transform "Weekly shop"; Predict tt])
  /\ ~ In "Groceries" (canonical_labels CATEGORY_EXAMPLES)
  /\ ~ (forall (description raw : string)
               (model : option (MultinomialNB unit))
               (vectorizer : option (TfidfVectorizer unit)),
          In (fst (predict_and_refine_category description raw model vectorizer))
             (canonical_labels CATEGORY_EXAMPLES)
          /\ fst (predict_and_refine_category description raw model vectorizer) <> "").
Proof.
  assert (Hout : ~ In "Groceries" (canonical_labels CATEGORY_EXAMPLES)).
  { cbn. intros H. repeat (destruct H as [H | H]; [discriminate H |]). exact H. }
  split; [| split].
  - vm_compute. reflexivity.
  - exact Hout.
  - intros H.
    destruct (H "Weekly shop" "xyz123"
                (Some (Build_MultinomialNB (fun _ : unit => "Groceries")))
                (Some (Build_TfidfVectorizer (fun _ : string => tt)))) as [Hin _].
    apply Hout. exact Hin.
Qed.

(** C4, amended.  For every description, raw label, model-or-none and
    vectorizer-or-none the pipeline returns a label (it is a total
    function), and that label is either a non-empty member of the keys of
    the table together with "Miscellaneous", or, when the matcher answers
    "Miscellaneous" and both a model and a vectorizer are given, exactly the
    prediction of the model for the description.  Hence the answer is a
    non-empty member of that set whenever no classifier is given, and
    whenever the prediction is a member of it. *)
Theorem normalize_label_set {Features : Type} (description raw : string)
    (model : option (MultinomialNB Features))
    (vectorizer : option (TfidfVectorizer Features)) :
  let c := fst (predict_and_refine_category description raw model vectorizer) in
  let p := fst (predict_and_refine_payment description raw model vectorizer) in
  ((In c (canonical_labels CATEGORY_EXAMPLES) /\ c <> "")
   \/ exists m v, model = Some m /\ vectorizer = Some v
                  /\ get_general_category_from_similarity raw = "Miscellaneous"
                  /\ c = predict m (transform v description))
  /\ ((In p (canonical_labels PAYMENT_EXAMPLES) /\ p <> "")
      \/ exists m v, model = Some m /\ vectorizer = Some v
                     /\ get_general_payment_method raw = "Miscellaneous"
                     /\ p = predict m (transform v description))
  /\ ((forall m v, model = Some m -> vectorizer = Some v ->
                   In (predict m (transform v description))
                      (canonical_labels CATEGORY_EXAMPLES)) ->
      In c (canonical_labels CATEGORY_EXAMPLES) /\ c <> "")
  /\ ((forall m v, model = Some m -> vectorizer = Some v ->
                   In (predict m (transform v description))
                      (canonical_labels PAYMENT_EXAMPLES)) ->
      In p (canonical_labels PAYMENT_EXAMPLES) /\ p <> "").
Proof.
  intros c p.
  assert (Hc : (In c (canonical_labels CATEGORY_EXAMPLES) /\ c <> "")
               \/ exists m v, model = Some m /\ vectorizer = Some v
                   /\ get_general_category_from_similarity raw = "Miscellaneous"
                   /\ c = predict m (transform v description)).
  { subst c.
    destruct (String.eqb_spec (get_general_category_from_similarity raw) "Miscellaneous")
      as [E | N].
    - destruct model as [m |], vectorizer as [v |];
        try (left; rewrite category_no_classifier by auto; cbn [fst];
             rewrite category_lookup;
             split; [apply similarity_lookup_canonical
                    | apply category_labels_nonempty, similarity_lookup_canonical]).
      right. exists m, v. rewrite (category_second_stage _ _ _ _ E). auto.
    - left. rewrite (category_first_stage _ _ _ _ N). cbn [fst].
      rewrite category_lookup.
      split; [apply similarity_lookup_canonical
             | apply category_labels_nonempty, similarity_lookup_canonical]. }
  assert (Hp : (In p (canonical_labels PAYMENT_EXAMPLES) /\ p <> "")
               \/ exists m v, model = Some m /\ vectorizer = Some v
                   /\ get_general_payment_method raw = "Miscellaneous"
                   /\ p = predict m (transform v description)).
  { subst p.
    destruct (String.eqb_spec (get_general_payment_method raw) "Miscellaneous")
      as [E | N].
    - destruct model as [m |], vectorizer as [v |];
        try (left; rewrite payment_no_classifier by auto; cbn [fst];
             rewrite payment_lookup;
             split; [apply similarity_lookup_canonical
                    | apply payment_labels_nonempty, similarity_lookup_canonical]).
      right. exists m, v. rewrite (payment_second_stage _ _ _ _ E). auto.
    - left. rewrite (payment_first_stage _ _ _ _ N). cbn [fst].
      rewrite payment_lookup.
      split; [apply similarity_lookup_canonical
             | apply payment_labels_nonempty, similarity_lookup_canonical]. }
  split; [exact Hc |]. split; [exact Hp |]. split.
  - intros Hpred. destruct Hc as [Hc | (m & v & Em & Ev & _ & Ec)]; [exact Hc |].
    rewrite Ec. split; [| apply category_labels_nonempty]; apply Hpred; assumption.
  - intros Hpred. destruct Hp as [Hp | (m & v & Em & Ev & _ & Ep)]; [exact Hp |].
    rewrite Ep. split; [| apply payment_labels_nonempty]; apply Hpred; assumption.
Qed.

(** With no classifier every answer is in the set: "xyz123" gives
    "Miscellaneous"; with a classifier trained on canonical labels the
    prediction "Transport" is in the set too. *)
Lemma normalize_label_set_witness :
  (In (fst (predict_and_refine_category (Features := unit) "Bus fare" "xyz123" None None))
      (canonical_labels CATEGORY_EXAMPLES)
   /\ fst (predict_and_refine_category (Features := unit) "Bus fare" "xyz123" None None) <> "")
  /\ (In (fst (predict_and_refine_payment "Bus fare" ""
                 (Some (Build_MultinomialNB (fun _ : unit => "Cash")))
                 (Some (Build_TfidfVectorizer (fun _ : string => tt)))))
         (canonical_labels PAYMENT_EXAMPLES)
      /\ fst (predict_and_refine_payment "Bus fare" ""
                (Some (Build_MultinomialNB (fun _ : unit => "Cash")))
                (Some (Build_TfidfVectorizer (fun _ : string => tt)))) <> "").
Proof.
  split.
  - apply (proj1 (proj2 (proj2 (normalize_label_set (Features := unit)
                                  "Bus fare" "xyz123" None None)))).
    intros m v H. discriminate H.
  - apply (proj2 (proj2 (proj2 (normalize_label_set "Bus fare" ""
                                  (Some (Build_MultinomialNB (fun _ : unit => "Cash")))
                                  (Some (Build_TfidfVectorizer (fun _ : string => tt))))))).
    intros m v Hm Hv. injection Hm as <-. injection Hv as <-.
    cbn. tauto.
Defined.

(** C5. Whatever is added through [add_expense_db], the collection grows
    by exactly one record, which holds the category and the payment method
    as the user entered them in [original_category] and
    [original_payment_method], next to the normalised [category] and
    [payment_method] (the answers of the two pipelines), and the date,
    amount and description it was given.  In particular "lunch" paid by
    "td debit" is stored as "Food" / "TD Debit" with both originals kept,
    whatever classifiers are passed. *)
Theorem add_expense_keeps_originals {Features : Type}
    (date : string) (amount : Q) (category description payment_method : string)
    (category_model : option (MultinomialNB Features))
    (category_vectorizer : option (TfidfVectorizer Features))
    (payment_model : option (MultinomialNB Features))
    (payment_vectorizer : option (TfidfVectorizer Features))
    (expenses : Store.Collection) :
  (exists expense,
     fst (add_expense_db date amount category description payment_method
            category_model category_vectorizer payment_model payment_vectorizer
            expenses)
     = expenses ++ [expense]
     /\ Store.original_category expense = category
     /\ Store.original_payment_method expense = payment_method
     /\ Store.category expense
        = fst (predict_and_refine_category description category
                 category_model category_vectorizer)
     /\ Store.payment_method expense
        = fst (predict_and_refine_payment description payment_method
                 payment_model payment_vectorizer)
     /\ Store.date expense = date
     /\ Store.amount expense = amount
     /\ Store.description expense = description)
  /\ fst (add_expense_db date amount "lunch" description "td debit"
            category_model category_vectorizer payment_model payment_vectorizer
            expenses)
     = expenses ++ [ {| Store.date := date;
                        Store.amount := amount;
                        Store.category := "Food";
                        Store.original_category := "lunch";
                        Store.description := description;
                        Store.payment_method := "TD Debit";
                        Store.original_payment_method := "td debit" |} ].
Proof.
  split.
  - unfold add_expense_db. rewrite guarded_category, guarded_payment.
    destruct (predict_and_refine_category description category
                category_model category_vectorizer) as [c tc].
    destruct (predict_and_refine_payment description payment_method
                payment_model payment_vectorizer) as [p tp].
    cbn. eexists. split; [reflexivity |]. cbn. repeat split; reflexivity.
  - unfold add_expense_db. rewrite guarded_category, guarded_payment.
    rewrite category_first_stage by (vm_compute; discriminate).
    rewrite payment_first_stage by (vm_compute; discriminate).
    replace (get_general_category_from_similarity "lunch") with "Food"
      by (vm_compute; reflexivity).
    replace (get_general_payment_method "td debit") with "TD Debit"
      by (vm_compute; reflexivity).
    reflexivity.
Qed.

(** C6. With fewer than two records in the collection (none included) both
    training functions return the pair [(None, None)] and do not raise,
    whatever scikit-learn would do on more data; and a pipeline call with
    no model and no vectorizer whose raw label has no similarity match (a
    best ratio of at most 0.8) returns "Miscellaneous" without any
    classifier call. *)
Theorem too_few_records_not_trained {Features : Type}
    (fit_transform : list string -> option (TfidfVectorizer Features * list Features))
    (fit : list Features -> list string -> MultinomialNB Features)
    (expenses : Store.Collection) (description raw : string) :
  (List.length expenses < 2 ->
   train_category_classifier fit_transform fit expenses = Some (None, None)
   /\ train_payment_classifier fit_transform fit expenses = Some (None, None))
  /\ ((best_ratio CATEGORY_EXAMPLES (PyStr.strip (PyStr.lower raw)) <= 8 # 10)%Q ->
      predict_and_refine_category (Features := Features) description raw None None
      = ("Miscellaneous", []))
  /\ ((best_ratio PAYMENT_EXAMPLES (PyStr.strip (PyStr.lower raw)) <= 8 # 10)%Q ->
      predict_and_refine_payment (Features := Features) description raw None None
      = ("Miscellaneous", [])).
Proof.
  split; [| split].
  - intros Hlen. unfold train_category_classifier, train_payment_classifier.
    rewrite !length_map. apply Nat.ltb_lt in Hlen. rewrite Hlen. split; reflexivity.
  - intros H. rewrite category_no_classifier by (left; reflexivity).
    rewrite category_lookup, (similarity_lookup_nomatch _ _ H). reflexivity.
  - intros H. rewrite payment_no_classifier by (left; reflexivity).
    rewrite payment_lookup, (similarity_lookup_nomatch _ _ H). reflexivity.
Qed.

(** An empty collection and a collection of one record, with a fitting
    procedure that would raise: training still returns [(None, None)], and
    "xyz123" is normalised to "Miscellaneous". *)
Lemma too_few_records_not_trained_witness :
  train_category_classifier (Features := unit) (fun _ => None)
    (fun _ _ => Build_MultinomialNB (fun _ => "Food")) [] = Some (None, None)
  /\ train_payment_classifier (Features := unit) (fun _ => None)
       (fun _ _ => Build_MultinomialNB (fun _ => "Food"))
       [Store.mkExpense "2025-05-20" 50 "Food" "Food" "Test" "Miscellaneous" "Card"]
     = Some (None, None)
  /\ predict_and_refine_category (Features := unit) "Test" "xyz123" None None
     = ("Miscellaneous", [])
  /\ predict_and_refine_payment (Features := unit) "Test" "Card" None None
     = ("Miscellaneous", []).
Proof.
  split; [| split; [| split]].
  - apply (proj1 (too_few_records_not_trained (Features := unit) (fun _ => None)
                    (fun _ _ => Build_MultinomialNB (fun _ => "Food")) [] "" "")).
    cbn. lia.
  - apply (proj1 (too_few_records_not_trained (Features := unit) (fun _ => None)
                    (fun _ _ => Build_MultinomialNB (fun _ => "Food"))
                    [Store.mkExpense "2025-05-20" 50 "Food" "Food" "Test"
                       "Miscellaneous" "Card"] "" "")).
    cbn. lia.
  - apply (proj1 (proj2 (too_few_records_not_trained (Features := unit) (fun _ => None)
                           (fun _ _ => Build_MultinomialNB (fun _ => "Food"))
                           [] "Test" "xyz123"))).
    vm_compute. discriminate.
  - apply (proj2 (proj2 (too_few_records_not_trained (Features := unit) (fun _ => None)
                           (fun _ _ => Build_MultinomialNB (fun _ => "Food"))
                           [] "Test" "Card"))).
    vm_compute. discriminate.
Defined.

(** * Further properties *)

(** ** [difflib]: the blocks cover no more than [b], and the ratio is a
    proportion *)

Module DifflibBFacts.

Import Difflib DifflibB DifflibFacts.

Lemma j2len_get_run (blo : nat) (d : list (nat * nat)) :
  Forall (run_in blo) d -> forall j, j2len_get d j <= j + 1 - blo.
Proof.
  induction 1 as [| [j' k] d [_ Hk] _ IH]; intros j; cbn [j2len_get].
  - lia.
  - destruct (Nat.eqb_spec j' j) as [-> | _]; [exact Hk | apply IH].
Qed.

Lemma scan_row_within_b (blo bhi i : nat) (j2len : list (nat * nat)) :
  Forall (run_in blo) j2len ->
  forall js newj2len best,
    Forall (run_in blo) newj2len ->
    within_b blo bhi best ->
    Forall (run_in blo) (fst (scan_row i blo bhi j2len js newj2len best))
    /\ within_b blo bhi (snd (scan_row i blo bhi j2len js newj2len best)).
Proof.
  intros Hprev.
  induction js as [| j js IH]; intros newj2len best Hnew Hbest; cbn [scan_row].
  - split; assumption.
  - destruct (Nat.ltb_spec j blo) as [_ | Hlo]; [apply IH; assumption |].
    destruct (Nat.leb_spec bhi j) as [_ | Hhi]; [split; assumption |].
    destruct best as [[besti bestj] bestsize].
    assert (Hk : j2len_get_pred j2len j <= j - blo).
    { destruct j as [| j']; cbn [j2len_get_pred]; [lia |].
      pose proof (j2len_get_run blo j2len Hprev j'). lia. }
    apply IH.
    + constructor; [unfold run_in; cbn [fst snd]; lia | exact Hnew].
    + destruct (bestsize <? j2len_get_pred j2len j + 1); [| exact Hbest].
      unfold within_b; cbn [fst snd]; lia.
Qed.

Lemma scan_rows_within_b (a : list ascii) (b2j : list (ascii * list nat))
    (blo bhi : nat) :
  forall rows j2len best,
    Forall (run_in blo) j2len ->
    within_b blo bhi best ->
    within_b blo bhi (scan_rows a b2j blo bhi rows j2len best).
Proof.
  induction rows as [| i rows IH]; intros j2len best Hprev Hbest; cbn [scan_rows].
  - exact Hbest.
  - pose proof (scan_row_within_b blo bhi i j2len Hprev
                  (b2j_get b2j (nth i a Ascii.zero)) [] best
                  (Forall_nil _) Hbest) as [Hnew Hbest'].
    destruct (scan_row i blo bhi j2len (b2j_get b2j (nth i a Ascii.zero)) [] best)
      as [newj2len best'].
    apply IH; assumption.
Qed.

Lemma extend_left_within_b (want_junk : bool) (a b : list ascii) (alo blo bhi : nat) :
  forall fuel m, within_b blo bhi m ->
    within_b blo bhi (extend_left fuel want_junk a b alo blo m).
Proof.
  induction fuel as [| fuel IH]; intros [[besti bestj] bestsize] Hm; cbn [extend_left].
  - exact Hm.
  - destruct (alo <? besti); cbn [andb]; [| exact Hm].
    destruct (Nat.ltb_spec blo bestj) as [Hlt | _]; cbn [andb]; [| exact Hm].
    match goal with |- within_b _ _ (if ?c then _ else _) => destruct c end;
      [| exact Hm].
    apply IH. unfold within_b in *; cbn [fst snd] in *; lia.
Qed.

Lemma extend_right_within_b (want_junk : bool) (a b : list ascii) (ahi blo bhi : nat) :
  forall fuel m, within_b blo bhi m ->
    within_b blo bhi (extend_right fuel want_junk a b ahi bhi m).
Proof.
  induction fuel as [| fuel IH]; intros [[besti bestj] bestsize] Hm; cbn [extend_right].
  - exact Hm.
  - destruct (besti + bestsize <? ahi); cbn [andb]; [| exact Hm].
    destruct (Nat.ltb_spec (bestj + bestsize) bhi) as [Hlt | _]; cbn [andb];
      [| exact Hm].
    match goal with |- within_b _ _ (if ?c then _ else _) => destruct c end;
      [| exact Hm].
    apply IH. unfold within_b in *; cbn [fst snd] in *; lia.
Qed.

Lemma find_longest_match_within_b (a b : list ascii) (b2j : list (ascii * list nat))
    (alo ahi blo bhi : nat) :
  blo <= bhi -> within_b blo bhi (find_longest_match a b b2j alo ahi blo bhi).
Proof.
  intros Hle. unfold find_longest_match.
  apply extend_right_within_b, extend_left_within_b,
        extend_right_within_b, extend_left_within_b.
  apply scan_rows_within_b.
  - constructor.
  - unfold within_b; cbn [fst snd]; lia.
Qed.

Lemma span_b_cons (alo ahi blo bhi : nat) (queue : list (nat * nat * nat * nat)) :
  span_b ((alo, ahi, blo, bhi) :: queue) = bhi - blo + span_b queue.
Proof. reflexivity. Qed.

Lemma matching_loop_total_b (a b : list ascii) (b2j : list (ascii * list nat)) :
  forall fuel queue blocks,
    Forall ordered_b queue ->
    total (snd (matching_loop fuel a b b2j queue blocks))
    <= total blocks + span_b queue.
Proof.
  induction fuel as [| fuel IH]; intros queue blocks Hord.
  - destruct queue; cbn [matching_loop snd]; lia.
  - destruct queue as [| [[[alo ahi] blo] bhi] queue];
      [cbn [matching_loop snd]; lia |].
    inversion Hord as [| ? ? Hhd Htl]; subst.
    unfold ordered_b in Hhd; cbn [fst snd] in Hhd.
    pose proof (find_longest_match_within_b a b b2j alo ahi blo bhi Hhd) as Hin.
    rewrite span_b_cons. cbn [matching_loop].
    destruct (find_longest_match a b b2j alo ahi blo bhi) as [[i j] k].
    unfold within_b in Hin; cbn [fst snd] in Hin.
    destruct (k =? 0).
    + etransitivity; [apply IH; exact Htl | lia].
    + destruct (Nat.ltb_spec alo i); destruct (Nat.ltb_spec blo j);
        destruct (Nat.ltb_spec (i + k) ahi); destruct (Nat.ltb_spec (j + k) bhi);
        cbn [andb];
        (etransitivity;
         [ apply IH;
           repeat (apply Forall_cons; [unfold ordered_b; cbn [fst snd]; lia |]);
           exact Htl
         | rewrite total_snoc; repeat rewrite span_b_cons; cbn [snd]; lia ]).
Qed.

(** [matches] counts characters of [b], each at most once. *)
Lemma matches_le_b (a b : list ascii) : matches a b <= List.length b.
Proof.
  rewrite matches_total. unfold get_matching_blocks.
  pose proof (matching_loop_total_b a b (chain_b b) (loop_fuel (List.length a))
                [(0, List.length a, 0, List.length b)] []) as Hloop.
  destruct (matching_loop (loop_fuel (List.length a)) a b (chain_b b)
              [(0, List.length a, 0, List.length b)] []) as [queue blocks].
  cbn [snd] in Hloop.
  pose proof (collapse_total (sort_blocks blocks) (0, 0, 0) []) as Hcol.
  destruct (collapse (sort_blocks blocks) (0, 0, 0) []) as [[[i1 j1] k1] non_adjacent].
  cbn [fst snd] in Hcol. rewrite total_sort_blocks in Hcol.
  change (total []) with 0 in *.
  assert (Hq : total blocks <= List.length b).
  { etransitivity; [apply Hloop |].
    - repeat constructor. unfold ordered_b; cbn [fst snd]; lia.
    - rewrite span_b_cons. change (span_b []) with 0. lia. }
  rewrite total_snoc. cbn [snd]. destruct (k1 =? 0) eqn:Hk.
  + apply Nat.eqb_eq in Hk. lia.
  + rewrite total_snoc. cbn [snd]. lia.
Qed.

Lemma Zpos_of_nat (n : nat) : n <> 0 -> Zpos (Pos.of_nat n) = Z.of_nat n.
Proof.
  intros Hn. rewrite <- positive_nat_Z, Nat2Pos.id by exact Hn. reflexivity.
Qed.

(** The ratio of two strings in terms of their lengths and [matches]. *)
Lemma ratio_unfold (a b : string) :
  Difflib.ratio a b
  = calculate_ratio (matches (list_ascii_of_string a) (list_ascii_of_string b))
                    (String.length a + String.length b).
Proof.
  unfold Difflib.ratio. rewrite !DoubleFacts.length_list_ascii. reflexivity.
Qed.

(** A ratio above the threshold needs lengths within a factor 3/2 of each
    other (two empty strings apart, whose ratio is 1). *)
Lemma ratio_above_lengths (a b : string) :
  b <> "" ->
  (Nlp.threshold < Difflib.ratio a b)%Q ->
  2 * String.length b < 3 * String.length a
  /\ 2 * String.length a < 3 * String.length b.
Proof.
  intros Hb0. rewrite ratio_unfold.
  pose proof (matches_le (list_ascii_of_string a) (list_ascii_of_string b)) as Ha.
  pose proof (matches_le_b (list_ascii_of_string a) (list_ascii_of_string b)) as Hb.
  rewrite DoubleFacts.length_list_ascii in Ha, Hb.
  assert (Hpos : 0 < String.length b) by (destruct b; [congruence | cbn; lia]).
  set (M := matches _ _) in *. set (la := String.length a) in *.
  set (lb := String.length b) in *.
  unfold calculate_ratio, Nlp.threshold.
  destruct (Nat.eqb_spec (la + lb) 0) as [E | N].
  - lia.
  - unfold Qlt. cbn [Qnum Qden]. rewrite (Zpos_of_nat _ N). lia.
Qed.

End DifflibBFacts.

Import Difflib DifflibFacts DifflibBFacts.

(** X1. Whatever the two strings, the loop of [get_matching_blocks] has
    emptied its work queue within [2 * len(a) + 1] pops, which is the fuel
    the model gives it: [ratio()] returns for every input, and the model
    never cuts the search short. *)
Theorem matching_blocks_terminates (a b : string) :
  fst (matching_loop (loop_fuel (String.length a))
         (list_ascii_of_string a) (list_ascii_of_string b)
         (chain_b (list_ascii_of_string b))
         [(0, String.length a, 0, String.length b)] []) = [].
Proof.
  pose proof (matching_loop_ends (list_ascii_of_string a) (list_ascii_of_string b)) as H.
  rewrite !DoubleFacts.length_list_ascii in H. exact H.
Qed.

(** X2. For all strings [a] and [b], the matched characters are at most
    the shorter length, and the similarity ratio lies between 0 and 1. *)
Theorem ratio_between_0_and_1 (a b : string) :
  matches (list_ascii_of_string a) (list_ascii_of_string b)
  <= Nat.min (String.length a) (String.length b)
  /\ (0 <= Difflib.ratio a b)%Q
  /\ (Difflib.ratio a b <= 1)%Q.
Proof.
  pose proof (matches_le (list_ascii_of_string a) (list_ascii_of_string b)) as Ha.
  pose proof (matches_le_b (list_ascii_of_string a) (list_ascii_of_string b)) as Hb.
  rewrite DoubleFacts.length_list_ascii in Ha, Hb.
  split; [lia |]. rewrite ratio_unfold.
  set (M := matches _ _) in *.
  unfold calculate_ratio.
  destruct (Nat.eqb_spec (String.length a + String.length b) 0) as [E | N].
  - split; discriminate.
  - unfold Qle. cbn [Qnum Qden]. rewrite (Zpos_of_nat _ N). split; lia.
Qed.

(** ** [lower] and [strip] *)

Module PyStrFacts.

Import PyStr PyStrShape.

Lemma lower_char_idem (c : ascii) : lower_char (lower_char c) = lower_char c.
Proof. destruct c as [[] [] [] [] [] [] [] []]; reflexivity. Qed.

Lemma isspace_lower_char (c : ascii) : isspace (lower_char c) = isspace c.
Proof. destruct c as [[] [] [] [] [] [] [] []]; reflexivity. Qed.

Lemma lower_idem (s : string) : lower (lower s) = lower s.
Proof.
  induction s as [| c s IH]; [reflexivity |].
  cbn [lower]. rewrite lower_char_idem, IH. reflexivity.
Qed.

Lemma lstrip_lower (s : string) : lstrip (lower s) = lower (lstrip s).
Proof.
  induction s as [| c s IH]; [reflexivity |].
  cbn [lower lstrip]. rewrite isspace_lower_char.
  destruct (isspace c); [exact IH | reflexivity].
Qed.

Lemma rstrip_lower (s : string) : rstrip (lower s) = lower (rstrip s).
Proof.
  induction s as [| c s IH]; [reflexivity |].
  cbn [lower rstrip]. rewrite IH, isspace_lower_char.
  destruct (rstrip s); cbn [lower]; [destruct (isspace c) |]; reflexivity.
Qed.

(** Lower-casing and stripping commute. *)
Lemma strip_lower (s : string) : strip (lower s) = lower (strip s).
Proof. unfold strip. rewrite lstrip_lower, rstrip_lower. reflexivity. Qed.

Lemma lstrip_clean (s : string) : clean_start (lstrip s).
Proof.
  induction s as [| c s IH]; [exact I |].
  cbn [lstrip]. destruct (isspace c) eqn:E; [exact IH | exact E].
Qed.

Lemma lstrip_of_clean (s : string) : clean_start s -> lstrip s = s.
Proof.
  destruct s as [| c s]; [reflexivity |].
  cbn [clean_start lstrip]. intros ->. reflexivity.
Qed.

Lemma rstrip_clean (s : string) : clean_start s -> clean_start (rstrip s).
Proof.
  destruct s as [| c s]; [intros _; exact I |].
  cbn [clean_start rstrip]. intros E.
  destruct (rstrip s); [rewrite E |]; exact E.
Qed.

Lemma rstrip_idem (s : string) : rstrip (rstrip s) = rstrip s.
Proof.
  induction s as [| c s IH]; [reflexivity |].
  cbn [rstrip]. destruct (rstrip s) as [| c' r] eqn:E.
  - destruct (isspace c) eqn:Ec; [reflexivity |].
    cbn [rstrip]. rewrite Ec. reflexivity.
  - cbn [rstrip] in IH |- *. destruct (rstrip r) as [| c'' r'].
    + destruct (isspace c') eqn:Ec'; [discriminate IH |].
      injection IH as <-. reflexivity.
    + rewrite IH. reflexivity.
Qed.

Lemma strip_idem (s : string) : strip (strip s) = strip s.
Proof.
  unfold strip.
  rewrite (lstrip_of_clean (rstrip (lstrip s))) by apply rstrip_clean, lstrip_clean.
  apply rstrip_idem.
Qed.

(** The text the matcher works on is not changed by lower-casing or
    stripping the input beforehand. *)
Lemma text_of_lower (s : string) : strip (lower (lower s)) = strip (lower s).
Proof. rewrite lower_idem. reflexivity. Qed.

Lemma text_of_strip (s : string) : strip (lower (strip s)) = strip (lower s).
Proof. rewrite <- strip_lower, strip_idem. reflexivity. Qed.

End PyStrFacts.

Import PyStrFacts.

(** X3. An input whose lower-cased, stripped form has fewer than 3
    characters, or more than 13, is never matched by the category matcher;
    for the payment-method matcher the limits are 3 and 14.  (A ratio above
    0.8 needs the two lengths within a factor 3/2 of each other, and the
    examples have 3 to 9, respectively 4 to 10, characters.) *)
Theorem short_or_long_input_unmatched (raw : string) :
  let n := String.length (PyStr.strip (PyStr.lower raw)) in
  (n < 3 \/ 13 < n -> get_general_category_from_similarity raw = "Miscellaneous")
  /\ (n < 3 \/ 14 < n -> get_general_payment_method raw = "Miscellaneous").
Proof.
  intros n.
  assert (Hgen : forall table,
            (forall p, In p (pairs table) ->
                       snd p <> ""
                       /\ (2 * String.length (snd p) < 3 * n ->
                           2 * n < 3 * String.length (snd p) -> False)) ->
            similarity_lookup table raw = "Miscellaneous").
  { intros table Hp. apply similarity_lookup_nomatch. unfold best_ratio.
    destruct (maxr_attained (PyStr.strip (PyStr.lower raw)) (pairs table))
      as [-> | (p & Hin & ->)]; [discriminate |].
    destruct (Qlt_le_dec threshold (score (PyStr.strip (PyStr.lower raw)) p))
      as [Hlt | Hle]; [| exact Hle].
    exfalso. destruct (Hp p Hin) as [Hne Hlen].
    destruct (ratio_above_lengths _ _ Hne Hlt) as [H1 H2].
    apply Hlen; assumption. }
  split; intros Hn.
  - rewrite category_lookup. apply Hgen. intros p Hin. cbn in Hin.
    repeat (destruct Hin as [<- | Hin];
            [split; [discriminate | cbn [snd String.length]; lia] |]).
    destruct Hin.
  - rewrite payment_lookup. apply Hgen. intros p Hin. cbn in Hin.
    repeat (destruct Hin as [<- | Hin];
            [split; [discriminate | cbn [snd String.length]; lia] |]).
    destruct Hin.
Qed.

(** Two characters are too few and fourteen too many for a category, while
    the limits themselves are reached: "bus" (3) and "groceriesxxxx" (13)
    are matched, as is "mastercardxxxx" (14) for payments. *)
Lemma short_or_long_input_unmatched_witness :
  get_general_category_from_similarity "bu" = "Miscellaneous"
  /\ get_general_category_from_similarity "groceriesxxxxx" = "Miscellaneous"
  /\ get_general_payment_method "mastercardxxxxx" = "Miscellaneous"
  /\ get_general_category_from_similarity "bus" = "Transport"
  /\ get_general_category_from_similarity "groceriesxxxx" = "Food"
  /\ get_general_payment_method "mastercardxxxx" = "Credit Card".
Proof.
  split; [| split; [| split; [| repeat split; vm_compute; reflexivity]]].
  - apply (proj1 (short_or_long_input_unmatched "bu")). left. vm_compute. lia.
  - apply (proj1 (short_or_long_input_unmatched "groceriesxxxxx")). right. vm_compute. lia.
  - apply (proj2 (short_or_long_input_unmatched "mastercardxxxxx")). right. vm_compute. lia.
Defined.

(** X4. Both matchers ignore letter case and surrounding white space:
    lower-casing the input first, or stripping it first, changes no
    answer, for any table. *)
Theorem matcher_ignores_case_and_blanks (table : list (string * list string))
    (raw : string) :
  similarity_lookup table (PyStr.lower raw) = similarity_lookup table raw
  /\ similarity_lookup table (PyStr.strip raw) = similarity_lookup table raw
  /\ get_general_category_from_similarity (PyStr.strip (PyStr.lower raw))
     = get_general_category_from_similarity raw
  /\ get_general_payment_method (PyStr.strip (PyStr.lower raw))
     = get_general_payment_method raw.
Proof.
  assert (Hl : similarity_lookup table (PyStr.lower raw) = similarity_lookup table raw)
    by (unfold similarity_lookup; rewrite text_of_lower; reflexivity).
  assert (Hs : forall t s, similarity_lookup t (PyStr.strip s) = similarity_lookup t s)
    by (intros t s; unfold similarity_lookup; rewrite text_of_strip; reflexivity).
  split; [exact Hl |]. split; [apply Hs |].
  rewrite !category_lookup, !payment_lookup, !Hs.
  split; unfold similarity_lookup; rewrite text_of_lower; reflexivity.
Qed.

(** X5. Every example word of a table is matched to the label it is listed
    under: no example is captured by an earlier label.  This includes
    "other", which is matched to "Miscellaneous". *)
Theorem examples_map_to_their_label (p : string * string) :
  (In p (pairs CATEGORY_EXAMPLES) ->
   get_general_category_from_similarity (snd p) = fst p)
  /\ (In p (pairs PAYMENT_EXAMPLES) ->
      get_general_payment_method (snd p) = fst p).
Proof.
  split; intros Hin; cbn in Hin;
    repeat (destruct Hin as [<- | Hin]; [vm_compute; reflexivity |]);
    destruct Hin.
Qed.

Lemma examples_map_to_their_label_witness :
  get_general_category_from_similarity "subway" = "Transport"
  /\ get_general_payment_method "visa" = "Credit Card".
Proof.
  split.
  - apply (proj1 (examples_map_to_their_label ("Transport", "subway"))).
    cbn. tauto.
  - apply (proj2 (examples_map_to_their_label ("Credit Card", "visa"))).
    cbn. tauto.
Defined.

(** X6. Rounding does not change the answer: for every input whose
    lower-cased, stripped form has at most 38 characters, the matcher run
    on IEEE 754 double-precision scores ([2.0 * matches / length] and the
    literal [0.8], as Python computes them) returns the same label as the
    matcher run on exact fractions, for both tables. *)
Theorem double_rounding_is_harmless (raw : string) :
  String.length (PyStr.strip (PyStr.lower raw)) <= 38 ->
  Double.similarity_lookup CATEGORY_EXAMPLES raw
  = get_general_category_from_similarity raw
  /\ Double.similarity_lookup PAYMENT_EXAMPLES raw
     = get_general_payment_method raw.
Proof. exact (DoubleFacts.matchers_double raw). Qed.

Lemma double_rounding_is_harmless_witness :
  Double.similarity_lookup CATEGORY_EXAMPLES "  Lunc " = "Food"
  /\ Double.similarity_lookup PAYMENT_EXAMPLES "  Lunc " = "Miscellaneous".
Proof.
  destruct (double_rounding_is_harmless "  Lunc ") as [Hc Hp].
  - vm_compute. lia.
  - split; [rewrite Hc | rewrite Hp]; vm_compute; reflexivity.
Defined.

(** ** Summaries by group *)

Module PyFacts.

Import Py.

Lemma compare_gt_lt (x y : string) : String.compare x y = Gt -> String.compare y x = Lt.
Proof.
  intros H. rewrite String.compare_antisym, H. reflexivity.
Qed.

Lemma ascending_cons (k : string) (keys : list string) :
  ascending (k :: keys) <->
  match keys with [] => True | k' :: _ => String.compare k k' = Lt end
  /\ ascending keys.
Proof. reflexivity. Qed.

Lemma key_add_in (key : string) (keys : list string) (k : string) :
  In k (key_add key keys) <-> k = key \/ In k keys.
Proof.
  induction keys as [| key' rest IH]; cbn [key_add In].
  - intuition congruence.
  - destruct (String.compare key key') eqn:E; cbn [In].
    + apply String.compare_eq_iff in E. subst. intuition congruence.
    + intuition congruence.
    + rewrite IH. intuition congruence.
Qed.

Lemma key_add_ascending (key : string) (keys : list string) :
  ascending keys -> ascending (key_add key keys).
Proof.
  induction keys as [| key' rest IH]; intros Hasc.
  - cbn. auto.
  - cbn [key_add]. destruct (String.compare key key') eqn:E.
    + exact Hasc.
    + apply ascending_cons. split; [exact E | exact Hasc].
    + apply ascending_cons. apply ascending_cons in Hasc.
      destruct Hasc as [Hhd Htl]. split; [| apply IH, Htl].
      destruct rest as [| key'' rest']; cbn [key_add].
      * apply compare_gt_lt, E.
      * destruct (String.compare key key'');
          [exact Hhd | apply compare_gt_lt, E | exact Hhd].
Qed.

Lemma group_keys_snoc (key_of : Store.Expense -> string)
    (rows : list Store.Expense) (e : Store.Expense) :
  group_keys key_of (rows ++ [e]) = key_add (key_of e) (group_keys key_of rows).
Proof. unfold group_keys. rewrite fold_left_app. reflexivity. Qed.

Lemma group_keys_ascending (key_of : Store.Expense -> string)
    (rows : list Store.Expense) :
  ascending (group_keys key_of rows).
Proof.
  induction rows as [| e rows IH] using rev_ind.
  - exact I.
  - rewrite group_keys_snoc. apply key_add_ascending, IH.
Qed.

Lemma group_keys_in (key_of : Store.Expense -> string)
    (rows : list Store.Expense) (k : string) :
  In k (group_keys key_of rows) <-> exists e, In e rows /\ key_of e = k.
Proof.
  induction rows as [| e rows IH] using rev_ind.
  - cbn. split; [intros [] | intros (e & [] & _)].
  - rewrite group_keys_snoc, key_add_in, IH. split.
    + intros [-> | (e' & Hin & E)].
      * exists e. split; [apply in_or_app; right; left; reflexivity | reflexivity].
      * exists e'. split; [apply in_or_app; left; exact Hin | exact E].
    + intros (e' & Hin & E). apply in_app_or in Hin.
      destruct Hin as [Hin | [<- | []]].
      * right. exists e'. split; assumption.
      * left. symmetry. exact E.
Qed.

(** The index of a summary is the list of its group keys. *)
Lemma groupby_sum_index (group_sum : list Q -> Q)
    (key_of : Store.Expense -> string) (rows : list Store.Expense) :
  map fst (groupby_sum group_sum key_of rows) = group_keys key_of rows.
Proof.
  unfold groupby_sum. rewrite map_map. cbn [fst]. apply map_id.
Qed.

Lemma group_amounts_snoc (key_of : Store.Expense -> string)
    (rows : list Store.Expense) (e : Store.Expense) (k : string) :
  group_amounts key_of (rows ++ [e]) k
  = group_amounts key_of rows k
    ++ (if String.eqb (key_of e) k then [Store.amount e] else []).
Proof.
  unfold group_amounts. rewrite filter_app, map_app. cbn [filter].
  destruct (String.eqb (key_of e) k); reflexivity.
Qed.

(** The row of a key in a list of rows computed key by key. *)
Lemma row_of_keys (f : string -> Q) (keys : list string) (k : string) :
  row k (map (fun key => (key, f key)) keys)
  = if existsb (String.eqb k) keys then Some (f k) else None.
Proof.
  induction keys as [| key rest IH]; [reflexivity |].
  cbn [map row existsb]. destruct (String.eqb_spec k key) as [-> | _].
  - reflexivity.
  - exact IH.
Qed.

Lemma existsb_key_add (key : string) (keys : list string) (k : string) :
  existsb (String.eqb k) (key_add key keys)
  = String.eqb k key || existsb (String.eqb k) keys.
Proof.
  apply eq_true_iff_eq. rewrite orb_true_iff, !existsb_exists. split.
  - intros (x & Hin & E). apply String.eqb_eq in E. subst x.
    apply key_add_in in Hin. destruct Hin as [-> | Hin].
    + left. apply String.eqb_refl.
    + right. exists k. split; [exact Hin | apply String.eqb_refl].
  - intros [E | (x & Hin & E)].
    + apply String.eqb_eq in E. subst k. exists key.
      split; [apply key_add_in; left; reflexivity | apply String.eqb_refl].
    + apply String.eqb_eq in E. subst x. exists k.
      split; [apply key_add_in; right; exact Hin | apply String.eqb_refl].
Qed.

(** The rows after one more document: the row of its key is the sum of
    the group with its amount at the end; the other rows stay. *)
Lemma row_groupby_snoc (group_sum : list Q -> Q)
    (key_of : Store.Expense -> string) (rows : list Store.Expense)
    (e : Store.Expense) (k : string) :
  row k (groupby_sum group_sum key_of (rows ++ [e]))
  = if String.eqb k (key_of e)
    then Some (group_sum (group_amounts key_of rows (key_of e) ++ [Store.amount e]))
    else row k (groupby_sum group_sum key_of rows).
Proof.
  unfold groupby_sum. rewrite !row_of_keys, group_keys_snoc, existsb_key_add.
  rewrite group_amounts_snoc.
  destruct (String.eqb_spec k (key_of e)) as [-> | N]; cbn [orb].
  - rewrite String.eqb_refl. reflexivity.
  - destruct (String.eqb_spec (key_of e) k) as [E | _]; [congruence |].
    rewrite app_nil_r. reflexivity.
Qed.

End PyFacts.

(** ** [add_expense_db] as one append *)

Module DatabaseFacts.

Import Database PipelineFacts.

(** The record [add_expense_db] builds, and the classifier calls it makes:
    those of the category pipeline, then those of the payment pipeline. *)
Lemma add_expense_db_appends {Features : Type}
    (date : string) (amount : Q) (category description payment_method : string)
    (category_model : option (MultinomialNB Features))
    (category_vectorizer : option (TfidfVectorizer Features))
    (payment_model : option (MultinomialNB Features))
    (payment_vectorizer : option (TfidfVectorizer Features))
    (expenses : Store.Collection) :
  add_expense_db date amount category description payment_method
    category_model category_vectorizer payment_model payment_vectorizer expenses
  = (expenses
     ++ [ {| Store.date := date;
             Store.amount := amount;
             Store.category :=
               fst (predict_and_refine_category description category
                      category_model category_vectorizer);
             Store.original_category := category;
             Store.description := description;
             Store.payment_method :=
               fst (predict_and_refine_payment description payment_method
                      payment_model payment_vectorizer);
             Store.original_payment_method := payment_method |} ],
     snd (predict_and_refine_category description category
            category_model category_vectorizer)
     ++ snd (predict_and_refine_payment description payment_method
               payment_model payment_vectorizer)).
Proof.
  unfold add_expense_db. rewrite guarded_category, guarded_payment.
  destruct (predict_and_refine_category description category
              category_model category_vectorizer) as [c tc].
  destruct (predict_and_refine_payment description payment_method
              payment_model payment_vectorizer) as [p tp].
  cbn. rewrite app_nil_r. reflexivity.
Qed.

Lemma pipeline_calls_category {Features : Type} (description raw : string)
    (model : option (MultinomialNB Features))
    (vectorizer : option (TfidfVectorizer Features)) :
  snd (predict_and_refine_category description raw model vectorizer) = []
  \/ exists m v,
       model = Some m /\ vectorizer = Some v
       /\ get_general_category_from_similarity raw = "Miscellaneous"
       /\ snd (predict_and_refine_category description raw model vectorizer)
          = [Transform description; Predict (transform v description)].
Proof.
  destruct (String.eqb_spec (get_general_category_from_similarity raw) "Miscellaneous")
    as [E | N].
  - destruct model as [m |], vectorizer as [v |];
      try (left; rewrite category_no_classifier by auto; reflexivity).
    right. exists m, v. rewrite (category_second_stage _ _ _ _ E). auto.
  - left. rewrite (category_first_stage _ _ _ _ N). reflexivity.
Qed.

Lemma pipeline_calls_payment {Features : Type} (description raw : string)
    (model : option (MultinomialNB Features))
    (vectorizer : option (TfidfVectorizer Features)) :
  snd (predict_and_refine_payment description raw model vectorizer) = []
  \/ exists m v,
       model = Some m /\ vectorizer = Some v
       /\ get_general_payment_method raw = "Miscellaneous"
       /\ snd (predict_and_refine_payment description raw model vectorizer)
          = [Transform description; Predict (transform v description)].
Proof.
  destruct (String.eqb_spec (get_general_payment_method raw) "Miscellaneous")
    as [E | N].
  - destruct model as [m |], vectorizer as [v |];
      try (left; rewrite payment_no_classifier by auto; reflexivity).
    right. exists m, v. rewrite (payment_second_stage _ _ _ _ E). auto.
  - left. rewrite (payment_first_stage _ _ _ _ N). reflexivity.
Qed.

(** The two training functions, case by case. *)
Lemma train_category_cases {Features : Type}
    (fit_transform : list string -> option (TfidfVectorizer Features * list Features))
    (fit : list Features -> list string -> MultinomialNB Features)
    (expenses : Store.Collection) :
  train_category_classifier fit_transform fit expenses
  = if List.length expenses <? 2 then Some (None, None)
    else match fit_transform (map Store.description expenses) with
         | None => None
         | Some (vectorizer, X) =>
             Some (Some (fit X (map Store.category expenses)), Some vectorizer)
         end.
Proof.
  unfold train_category_classifier.
  rewrite length_map, !map_map. cbn [fst snd]. reflexivity.
Qed.

Lemma train_payment_cases {Features : Type}
    (fit_transform : list string -> option (TfidfVectorizer Features * list Features))
    (fit : list Features -> list string -> MultinomialNB Features)
    (expenses : Store.Collection) :
  train_payment_classifier fit_transform fit expenses
  = if List.length expenses <? 2 then Some (None, None)
    else match fit_transform (map Store.description expenses) with
         | None => None
         | Some (vectorizer, X) =>
             Some (Some (fit X (map Store.payment_method expenses)), Some vectorizer)
         end.
Proof.
  unfold train_payment_classifier.
  rewrite length_map, !map_map. cbn [fst snd]. reflexivity.
Qed.

End DatabaseFacts.

Import DatabaseFacts PyFacts.

(** X7. The classifier calls of [add_expense_db] are those of the category
    pipeline followed by those of the payment pipeline.  For each label
    the classifier is either not called at all, or, when the matcher
    answers "Miscellaneous" and model and vectorizer are both given, called
    exactly once: one [transform] of the description, then one [predict] on
    its result.  So at most four calls are made, none on the raw labels. *)
Theorem add_expense_classifier_calls {Features : Type}
    (date : string) (amount : Q) (category description payment_method : string)
    (category_model : option (MultinomialNB Features))
    (category_vectorizer : option (TfidfVectorizer Features))
    (payment_model : option (MultinomialNB Features))
    (payment_vectorizer : option (TfidfVectorizer Features))
    (expenses : Store.Collection) :
  let calls :=
    snd (add_expense_db date amount category description payment_method
           category_model category_vectorizer payment_model payment_vectorizer
           expenses) in
  let category_calls :=
    snd (predict_and_refine_category description category
           category_model category_vectorizer) in
  let payment_calls :=
    snd (predict_and_refine_payment description payment_method
           payment_model payment_vectorizer) in
  calls = category_calls ++ payment_calls
  /\ (category_calls = []
      \/ exists m v,
           category_model = Some m /\ category_vectorizer = Some v
           /\ get_general_category_from_similarity category = "Miscellaneous"
           /\ category_calls
              = [Transform description; Predict (transform v description)])
  /\ (payment_calls = []
      \/ exists m v,
           payment_model = Some m /\ payment_vectorizer = Some v
           /\ get_general_payment_method payment_method = "Miscellaneous"
           /\ payment_calls
              = [Transform description; Predict (transform v description)])
  /\ List.length calls <= 4.
Proof.
  intros calls category_calls payment_calls.
  assert (E : calls = category_calls ++ payment_calls)
    by (subst calls; rewrite add_expense_db_appends; reflexivity).
  pose proof (pipeline_calls_category description category
                category_model category_vectorizer) as Hc.
  pose proof (pipeline_calls_payment description payment_method
                payment_model payment_vectorizer) as Hp.
  fold category_calls in Hc. fold payment_calls in Hp.
  repeat split; try assumption.
  rewrite E, length_app.
  assert (List.length category_calls <= 2)
    by (destruct Hc as [-> | (m & v & _ & _ & _ & ->)]; cbn; lia).
  assert (List.length payment_calls <= 2)
    by (destruct Hp as [-> | (m & v & _ & _ & _ & ->)]; cbn; lia).
  lia.
Qed.

(** X8. The two training functions return [(None, None)] exactly when the
    collection has fewer than two records.  With two or more they raise if
    scikit-learn's fitting raises, and otherwise return a model together
    with its vectorizer: never one without the other.  Both functions fit
    on the same descriptions, so one raises exactly when the other does. *)
Theorem training_outcomes {Features : Type}
    (fit_transform : list string -> option (TfidfVectorizer Features * list Features))
    (fit : list Features -> list string -> MultinomialNB Features)
    (expenses : Store.Collection) :
  (train_category_classifier fit_transform fit expenses = Some (None, None)
   <-> List.length expenses < 2)
  /\ (train_payment_classifier fit_transform fit expenses = Some (None, None)
      <-> List.length expenses < 2)
  /\ (forall model vectorizer,
        train_category_classifier fit_transform fit expenses
        = Some (model, vectorizer) ->
        (model = None <-> vectorizer = None))
  /\ (forall model vectorizer,
        train_payment_classifier fit_transform fit expenses
        = Some (model, vectorizer) ->
        (model = None <-> vectorizer = None))
  /\ (train_category_classifier fit_transform fit expenses = None
      <-> train_payment_classifier fit_transform fit expenses = None)
  /\ (train_category_classifier fit_transform fit expenses = None
      <-> 2 <= List.length expenses
          /\ fit_transform (map Store.description expenses) = None).
Proof.
  rewrite (train_category_cases fit_transform fit expenses),
          (train_payment_cases fit_transform fit expenses).
  destruct (Nat.ltb_spec (List.length expenses) 2) as [Hlt | Hge].
  - split; [tauto |]. split; [tauto |].
    split; [intros m v H; injection H as <- <-; tauto |].
    split; [intros m v H; injection H as <- <-; tauto |].
    split; [split; discriminate |].
    split; [discriminate | intros [H _]; lia].
  - destruct (fit_transform (map Store.description expenses)) as [[vectorizer X] |].
    + split; [split; [discriminate | lia] |].
      split; [split; [discriminate | lia] |].
      split; [intros m v H; injection H as <- <-; split; discriminate |].
      split; [intros m v H; injection H as <- <-; split; discriminate |].
      split; [split; discriminate |].
      split; [discriminate | intros [_ H]; discriminate H].
    + split; [split; [discriminate | lia] |].
      split; [split; [discriminate | lia] |].
      split; [intros m v H; discriminate H |].
      split; [intros m v H; discriminate H |].
      split; [tauto |].
      split; [intros _; split; [exact Hge | reflexivity] | reflexivity].
Qed.

Lemma training_outcomes_witness :
  train_category_classifier (Features := unit) (fun _ => None)
    (fun _ _ => Build_MultinomialNB (fun _ => "Food")) [] = Some (None, None)
  /\ train_payment_classifier (Features := unit) (fun _ => None)
       (fun _ _ => Build_MultinomialNB (fun _ => "Food"))
       [Store.mkExpense "2025-05-23" 20 "Food" "lunch" "Lunch at cafe" "TD Debit" "td debit";
        Store.mkExpense "2025-05-23" 25 "Food" "dinner" "Dinner at restaurant" "TD Debit" "TD debit"]
     = None.
Proof.
  split.
  - apply (proj1 (training_outcomes (Features := unit) (fun _ => None)
                    (fun _ _ => Build_MultinomialNB (fun _ => "Food")) [])).
    cbn. lia.
  - apply (proj1 (proj2 (proj2 (proj2 (proj2
             (training_outcomes (Features := unit) (fun _ => None)
                (fun _ _ => Build_MultinomialNB (fun _ => "Food"))
                [Store.mkExpense "2025-05-23" 20 "Food" "lunch" "Lunch at cafe"
                   "TD Debit" "td debit";
                 Store.mkExpense "2025-05-23" 25 "Food" "dinner"
                   "Dinner at restaurant" "TD Debit" "TD debit"])))))).
    apply (proj2 (proj2 (proj2 (proj2 (proj2
             (training_outcomes (Features := unit) (fun _ => None)
                (fun _ _ => Build_MultinomialNB (fun _ => "Food"))
                [Store.mkExpense "2025-05-23" 20 "Food" "lunch" "Lunch at cafe"
                   "TD Debit" "td debit";
                 Store.mkExpense "2025-05-23" 25 "Food" "dinner"
                   "Dinner at restaurant" "TD Debit" "TD debit"])))))).
    split; [cbn; lia | reflexivity].
Defined.

(** ** The report, the budget check and the form *)

Import Reporting Settings Gui.

(** X9. [generate_report] raises [KeyError('amount')] exactly on the empty
    collection.  On any other it returns, and each of its two summaries
    has its keys in strictly ascending order (so one row per key), the keys
    being exactly the categories, respectively payment methods, that occur
    in the collection.  This holds however pandas adds the amounts. *)
Theorem report_rows (series_sum group_sum : list Q -> Q)
    (expenses : Store.Collection) :
  (generate_report series_sum group_sum expenses
   = Py.Raised (Py.KeyError "amount") <-> expenses = [])
  /\ (expenses <> [] ->
      exists report,
        generate_report series_sum group_sum expenses = Py.Returned report
        /\ Py.ascending (map fst (category_summary report))
        /\ Py.ascending (map fst (payment_summary report))
        /\ (forall k, In k (map fst (category_summary report))
                      <-> exists e, In e expenses /\ Store.category e = k)
        /\ (forall k, In k (map fst (payment_summary report))
                      <-> exists e, In e expenses /\ Store.payment_method e = k)).
Proof.
  split.
  - destruct expenses; cbn; split; congruence.
  - intros Hne. destruct expenses as [| e expenses]; [congruence |].
    eexists. split; [reflexivity |]. cbn [category_summary payment_summary].
    rewrite !groupby_sum_index.
    repeat split; try apply group_keys_ascending; apply group_keys_in.
Qed.

(** The two expenses of the repository's own scenario, entered as "lunch"
    and "dinner", paid "td debit" and "TD debit": the report shows one row
    "Food" and one row "TD Debit". *)
Lemma report_rows_witness :
  exists report,
    generate_report (fun column => fold_left Qplus column 0%Q)
      (fun column => fold_left Qplus column 0%Q)
      (fst (add_expense_db (Features := unit) "2025-05-23" 25 "dinner"
              "Dinner at restaurant" "TD debit" None None None None
              (fst (add_expense_db (Features := unit) "2025-05-23" 20 "lunch"
                      "Lunch at cafe" "td debit" None None None None []))))
    = Py.Returned report
    /\ map fst (category_summary report) = ["Food"]
    /\ map fst (payment_summary report) = ["TD Debit"]
    /\ generate_report (fun column => fold_left Qplus column 0%Q)
         (fun column => fold_left Qplus column 0%Q) []
       = Py.Raised (Py.KeyError "amount").
Proof.
  destruct (proj2 (report_rows (fun column => fold_left Qplus column 0%Q)
                     (fun column => fold_left Qplus column 0%Q)
                     (fst (add_expense_db (Features := unit) "2025-05-23" 25 "dinner"
                             "Dinner at restaurant" "TD debit" None None None None
                             (fst (add_expense_db (Features := unit) "2025-05-23" 20
                                     "lunch" "Lunch at cafe" "td debit"
                                     None None None None [])))))
              ltac:(vm_compute; discriminate)) as (report & E & _).
  exists report. split; [exact E |].
  vm_compute in E. injection E as <-.
  split; [reflexivity |]. split; [reflexivity |].
  apply (proj1 (report_rows (fun column => fold_left Qplus column 0%Q)
                  (fun column => fold_left Qplus column 0%Q) [])). reflexivity.
Defined.

(** X10. After [add_expense_db] the report exists.  Its total is pandas'
    sum of the old amounts followed by the new one.  In each summary the
    row of the normalised label is pandas' sum of the amounts already in
    that group followed by the new amount (the row is opened if the label
    is new), and every other row is exactly as it was before the insert.
    Nothing is assumed of how pandas adds doubles: the two sums are
    arbitrary functions of the amounts in row order. *)
Theorem report_after_add_expense {Features : Type}
    (series_sum group_sum : list Q -> Q)
    (date : string) (amount : Q) (category description payment_method : string)
    (category_model : option (MultinomialNB Features))
    (category_vectorizer : option (TfidfVectorizer Features))
    (payment_model : option (MultinomialNB Features))
    (payment_vectorizer : option (TfidfVectorizer Features))
    (expenses : Store.Collection) :
  let stored :=
    fst (add_expense_db date amount category description payment_method
           category_model category_vectorizer payment_model payment_vectorizer
           expenses) in
  let c := fst (predict_and_refine_category description category
                  category_model category_vectorizer) in
  let p := fst (predict_and_refine_payment description payment_method
                  payment_model payment_vectorizer) in
  exists report,
    generate_report series_sum group_sum stored = Py.Returned report
    /\ total_expenses report = series_sum (map Store.amount expenses ++ [amount])
    /\ (forall k,
          Py.row k (category_summary report)
          = if String.eqb k c
            then Some (group_sum
                         (Py.group_amounts Store.category expenses c ++ [amount]))
            else Py.row k (Py.groupby_sum group_sum Store.category expenses))
    /\ (forall k,
          Py.row k (payment_summary report)
          = if String.eqb k p
            then Some (group_sum
                         (Py.group_amounts Store.payment_method expenses p
                          ++ [amount]))
            else Py.row k (Py.groupby_sum group_sum Store.payment_method expenses)).
Proof.
  intros stored c p. subst stored. rewrite add_expense_db_appends. cbn [fst].
  fold c p.
  set (e := {| Store.date := date; Store.amount := amount; Store.category := c;
               Store.original_category := category;
               Store.description := description; Store.payment_method := p;
               Store.original_payment_method := payment_method |}).
  unfold generate_report, Py.column.
  destruct (expenses ++ [e]) as [| e0 rest] eqn:E;
    [destruct expenses; discriminate E |].
  rewrite <- E. eexists. split; [reflexivity |].
  cbn [total_expenses category_summary payment_summary].
  split; [rewrite map_app; reflexivity |].
  split; intros k; rewrite row_groupby_snoc; reflexivity.
Qed.

(** X11. [check_budget] raises [KeyError('amount')] exactly when no
    stored record has the category it is asked about, compared as it is
    written.  Since records hold the normalised label, a collection whose
    labels are all canonical makes every other query raise, for instance
    the word the user typed; when some record has the category the
    function returns and prints at most one line.  This holds however
    pandas adds the amounts. *)
Theorem check_budget_needs_stored_label (series_sum : list Q -> Q)
    (category : string) (budget_limit : Q) (expenses : Store.Collection) :
  (check_budget series_sum category budget_limit expenses
   = Py.Raised (Py.KeyError "amount")
   <-> forall e, In e expenses -> Store.category e <> category)
  /\ (Forall canonical expenses ->
      ~ In category (canonical_labels CATEGORY_EXAMPLES) ->
      check_budget series_sum category budget_limit expenses
      = Py.Raised (Py.KeyError "amount"))
  /\ ((exists e, In e expenses /\ Store.category e = category) ->
      exists lines,
        check_budget series_sum category budget_limit expenses = Py.Returned lines
        /\ List.length lines <= 1).
Proof.
  assert (Hnone : find_category category expenses = []
                  <-> forall e, In e expenses -> Store.category e <> category).
  { unfold find_category. induction expenses as [| e expenses IH]; cbn [filter].
    - split; [intros _ e [] | reflexivity].
    - destruct (String.eqb_spec (Store.category e) category) as [E | N].
      + split; [discriminate |]. intros H. exfalso. apply (H e); [left; reflexivity | exact E].
      + rewrite IH. split.
        * intros H e' [<- | Hin]; [exact N | apply H, Hin].
        * intros H e' Hin. apply H. right. exact Hin. }
  assert (Hraise : check_budget series_sum category budget_limit expenses
                   = Py.Raised (Py.KeyError "amount")
                   <-> find_category category expenses = []).
  { unfold check_budget, Py.column.
    destruct (find_category category expenses) as [| e df].
    - split; reflexivity.
    - destruct (Qgtb _ budget_limit); split; discriminate. }
  split; [rewrite Hraise; exact Hnone |]. split.
  - intros Hcan Hnot. apply Hraise, Hnone. intros e Hin E.
    apply Hnot. rewrite <- E.
    rewrite Forall_forall in Hcan. apply (Hcan e Hin).
  - intros (e & Hin & E). unfold check_budget, Py.column.
    destruct (find_category category expenses) as [| e0 df] eqn:Ef.
    + exfalso. apply (proj1 Hnone eq_refl e Hin E).
    + destruct (Qgtb _ budget_limit); eexists; (split; [reflexivity | cbn; lia]).
Qed.

(** One lunch of 20 entered through the form: asking about "lunch" raises,
    asking about "Food" with a limit of 10 prints the alert. *)
Lemma check_budget_needs_stored_label_witness :
  check_budget (fun column => fold_left Qplus column 0%Q) "lunch" 10
    [Store.mkExpense "2025-05-23" 20 "Food" "lunch" "Lunch at cafe" "TD Debit" "td debit"]
  = Py.Raised (Py.KeyError "amount")
  /\ exists lines,
       check_budget (fun column => fold_left Qplus column 0%Q) "Food" 10
         [Store.mkExpense "2025-05-23" 20 "Food" "lunch" "Lunch at cafe"
            "TD Debit" "td debit"]
       = Py.Returned lines
       /\ List.length lines <= 1.
Proof.
  split.
  - apply (proj1 (proj2 (check_budget_needs_stored_label
                           (fun column => fold_left Qplus column 0%Q) "lunch" 10
                           [Store.mkExpense "2025-05-23" 20 "Food" "lunch"
                              "Lunch at cafe" "TD Debit" "td debit"]))).
    + repeat constructor; cbn; tauto.
    + cbn. intros H. repeat (destruct H as [H | H]; [discriminate H |]). exact H.
  - apply (proj2 (proj2 (check_budget_needs_stored_label
                           (fun column => fold_left Qplus column 0%Q) "Food" 10
                           [Store.mkExpense "2025-05-23" 20 "Food" "lunch"
                              "Lunch at cafe" "TD Debit" "td debit"]))).
    eexists. split; [left; reflexivity | reflexivity].
Defined.

Module GuiFacts.

Import PipelineFacts.

(** What one press of Submit does to the collection. *)
Lemma submit_store (float_of_text : string -> option Q) (form : Form)
    (expenses : Store.Collection) :
  snd (submit float_of_text form expenses)
  = if accepted float_of_text form
    then match float_of_text (amount_entry form) with
         | Some x =>
             expenses
             ++ [ {| Store.date := date_entry form;
                     Store.amount := x;
                     Store.category :=
                       get_general_category_from_similarity (category_entry form);
                     Store.original_category := category_entry form;
                     Store.description := desc_entry form;
                     Store.payment_method :=
                       get_general_payment_method (payment_entry form);
                     Store.original_payment_method := payment_entry form |} ]
         | None => expenses
         end
    else expenses.
Proof.
  unfold submit, accepted.
  destruct (is_empty (date_entry form) || is_empty (amount_entry form)
            || is_empty (category_entry form) || is_empty (desc_entry form)
            || is_empty (payment_entry form)); cbn [negb andb]; [reflexivity |].
  destruct (float_of_text (amount_entry form)) as [x |]; [| reflexivity].
  rewrite add_expense_db_appends.
  rewrite category_no_classifier, payment_no_classifier by (left; reflexivity).
  reflexivity.
Qed.

Lemma accepted_fields (float_of_text : string -> option Q) (form : Form) :
  accepted float_of_text form = true ->
  date_entry form <> "" /\ category_entry form <> ""
  /\ desc_entry form <> "" /\ payment_entry form <> "".
Proof.
  unfold accepted, is_empty. intros H.
  apply andb_true_iff in H. destruct H as [H _].
  apply negb_true_iff in H.
  repeat (apply orb_false_iff in H; destruct H as [H ?]).
  repeat split; apply String.eqb_neq; assumption.
Qed.

Lemma from_form_canonical (e : Store.Expense) : from_form e -> canonical e.
Proof.
  intros (_ & _ & _ & _ & Ec & Ep). split.
  - rewrite Ec, category_lookup. apply similarity_lookup_canonical.
  - rewrite Ep, payment_lookup. apply similarity_lookup_canonical.
Qed.

(** A series of submissions appends one well-formed record per accepted
    form. *)
Lemma session_appends (float_of_text : string -> option Q) (forms : list Form) :
  forall expenses,
  exists added,
    session float_of_text forms expenses = expenses ++ added
    /\ List.length added = List.length (filter (accepted float_of_text) forms)
    /\ Forall from_form added.
Proof.
  induction forms as [| form forms IH]; intros expenses.
  - exists []. rewrite app_nil_r. repeat split. constructor.
  - change (session float_of_text (form :: forms) expenses)
      with (session float_of_text forms (snd (submit float_of_text form expenses))).
    rewrite submit_store. cbn [filter].
    destruct (accepted float_of_text form) eqn:Hacc; [| apply IH].
    destruct (float_of_text (amount_entry form)) as [x |] eqn:Hx.
    + destruct (IH (expenses
                    ++ [ {| Store.date := date_entry form;
                            Store.amount := x;
                            Store.category :=
                              get_general_category_from_similarity (category_entry form);
                            Store.original_category := category_entry form;
                            Store.description := desc_entry form;
                            Store.payment_method :=
                              get_general_payment_method (payment_entry form);
                            Store.original_payment_method := payment_entry form |} ]))
        as (added & E & Hlen & Hall).
      eexists. rewrite E, <- app_assoc. split; [reflexivity |].
      split; [cbn [app List.length]; rewrite Hlen; reflexivity |].
      constructor; [| exact Hall].
      destruct (accepted_fields _ _ Hacc) as (Hd & Hc & Hde & Hp).
      repeat split; assumption.
    + unfold accepted in Hacc. rewrite Hx, andb_false_r in Hacc. discriminate.
Qed.

End GuiFacts.

Import GuiFacts.

(** X12. Whatever is typed into the form, and however the amount text is
    parsed: if every record of the collection has non-empty date,
    description and original texts and carries the labels the matchers
    give to its original texts, then so has every record after any series
    of submissions; all labels are then keys of the tables or
    "Miscellaneous".  The records already there are kept in place, and
    exactly one record is added per form that has all five fields filled
    in and a numeric amount; a rejected form adds nothing. *)
Theorem gui_session_invariant (float_of_text : string -> option Q)
    (forms : list Form) (expenses : Store.Collection) :
  Forall from_form expenses ->
  Forall from_form (session float_of_text forms expenses)
  /\ Forall canonical (session float_of_text forms expenses)
  /\ List.length (session float_of_text forms expenses)
     = List.length expenses + List.length (filter (accepted float_of_text) forms)
  /\ firstn (List.length expenses) (session float_of_text forms expenses) = expenses.
Proof.
  intros Hold.
  destruct (session_appends float_of_text forms expenses) as (added & -> & Hlen & Hnew).
  assert (Hall : Forall from_form (expenses ++ added))
    by (apply Forall_app; split; assumption).
  split; [exact Hall |]. split.
  - apply Forall_impl with (P := from_form); [apply from_form_canonical | exact Hall].
  - split.
    + rewrite length_app, Hlen. reflexivity.
    + rewrite firstn_app, Nat.sub_diag, firstn_all. cbn [firstn].
      apply app_nil_r.
Qed.

(** Three presses of Submit on a fresh collection: an empty description,
    an amount that is no number, and a good form.  One record is stored,
    with the labels "Food" and "TD Debit". *)
Lemma gui_session_invariant_witness :
  Forall canonical
    (session (fun text => if String.eqb text "20" then Some 20%Q else None)
       [ Build_Form "2025-05-23" "20" "lunch" "" "td debit";
         Build_Form "2025-05-23" "twenty" "lunch" "Lunch at cafe" "td debit";
         Build_Form "2025-05-23" "20" "lunch" "Lunch at cafe" "td debit" ] [])
  /\ session (fun text => if String.eqb text "20" then Some 20%Q else None)
       [ Build_Form "2025-05-23" "20" "lunch" "" "td debit";
         Build_Form "2025-05-23" "twenty" "lunch" "Lunch at cafe" "td debit";
         Build_Form "2025-05-23" "20" "lunch" "Lunch at cafe" "td debit" ] []
     = [Store.mkExpense "2025-05-23" 20 "Food" "lunch" "Lunch at cafe"
          "TD Debit" "td debit"].
Proof.
  split.
  - apply (gui_session_invariant
             (fun text => if String.eqb text "20" then Some 20%Q else None)
             [ Build_Form "2025-05-23" "20" "lunch" "" "td debit";
               Build_Form "2025-05-23" "twenty" "lunch" "Lunch at cafe" "td debit";
               Build_Form "2025-05-23" "20" "lunch" "Lunch at cafe" "td debit" ] []).
    constructor.
  - vm_compute. reflexivity.
Defined.

(** ** [ml_models.py] on little or unreadable data *)

Import MlModels.


(** X13. [forecast_expenses] and [predict_expenses] read the date column
    before they test for insufficient data: on the empty collection both
    raise [KeyError('date')]; on any other collection whose dates pandas
    cannot read both raise [ValueError]; and on a single record with a
    readable date they return the empty frame and [0.0], whatever Prophet
    and the regression would do.  [detect_anomalies] tests first: with
    fewer than three records, none included, it returns the empty frame
    without clustering. *)
Theorem models_on_little_data {Timestamp Forecast Anomalies : Type}
    (to_datetime : list string -> option (list Timestamp))
    (days_since_first : list Timestamp -> list Z)
    (empty_forecast : Forecast) (empty_anomalies : Anomalies)
    (prophet : list (Timestamp * Q) -> Py.result Forecast)
    (linear_regression : list (Z * Q) -> Z -> Py.result Q)
    (kmeans_anomalies : list (Q * string) -> Py.result Anomalies)
    (expenses : Store.Collection) :
  (expenses = [] ->
   forecast_expenses Timestamp Forecast to_datetime empty_forecast prophet expenses
   = Py.Raised (Py.KeyError "date")
   /\ predict_expenses Timestamp to_datetime days_since_first linear_regression expenses
      = Py.Raised (Py.KeyError "date"))
  /\ (expenses <> [] -> to_datetime (map Store.date expenses) = None ->
      forecast_expenses Timestamp Forecast to_datetime empty_forecast prophet expenses
      = Py.Raised Py.ValueError
      /\ predict_expenses Timestamp to_datetime days_since_first linear_regression expenses
         = Py.Raised Py.ValueError)
  /\ (List.length expenses = 1 -> to_datetime (map Store.date expenses) <> None ->
      forecast_expenses Timestamp Forecast to_datetime empty_forecast prophet expenses
      = Py.Returned empty_forecast
      /\ predict_expenses Timestamp to_datetime days_since_first linear_regression
           expenses
         = Py.Returned 0%Q)
  /\ (List.length expenses < 3 ->
      detect_anomalies Anomalies empty_anomalies kmeans_anomalies expenses
      = Py.Returned empty_anomalies).
Proof.
  split; [| split; [| split]].
  - intros ->. split; reflexivity.
  - intros Hne Hbad. unfold forecast_expenses, predict_expenses, Py.column.
    destruct expenses as [| e rest]; [congruence |].
    rewrite Hbad. split; reflexivity.
  - intros Hlen Hok. unfold forecast_expenses, predict_expenses, Py.column.
    destruct expenses as [| e [| e' rest]]; try discriminate Hlen.
    destruct (to_datetime (map Store.date [e])) as [ds |]; [| congruence].
    split; reflexivity.
  - intros Hlen. unfold detect_anomalies.
    apply Nat.ltb_lt in Hlen. rewrite Hlen. reflexivity.
Qed.

(** A parser that reads only "2025-05-23", and libraries that would
    raise: the empty collection gives [KeyError], one good record gives the
    insufficient-data answers, a column with a bad date gives
    [ValueError]. *)
Lemma models_on_little_data_witness :
  forecast_expenses nat nat
    (fun ds => if forallb (String.eqb "2025-05-23") ds then Some (map (fun _ => 0) ds) else None)
    0 (fun _ => Py.Raised Py.ValueError) []
  = Py.Raised (Py.KeyError "date")
  /\ predict_expenses nat
       (fun ds => if forallb (String.eqb "2025-05-23") ds then Some (map (fun _ => 0) ds) else None)
       (fun _ => []) (fun _ _ => Py.Raised Py.ValueError)
       [Store.mkExpense "2025-05-23" 20 "Food" "lunch" "Lunch at cafe"
          "TD Debit" "td debit"]
     = Py.Returned 0%Q
  /\ forecast_expenses nat nat
       (fun ds => if forallb (String.eqb "2025-05-23") ds then Some (map (fun _ => 0) ds) else None)
       0 (fun _ => Py.Returned 1)
       [Store.mkExpense "2025-05-23" 20 "Food" "lunch" "Lunch at cafe"
          "TD Debit" "td debit";
        Store.mkExpense "yesterday" 25 "Food" "dinner" "Dinner at restaurant"
          "TD Debit" "TD debit";
        Store.mkExpense "2025-05-23" 5 "Transport" "bus" "Bus fare" "Cash" "cash"]
     = Py.Raised Py.ValueError
  /\ detect_anomalies nat 0 (fun _ => Py.Raised Py.ValueError) [] = Py.Returned 0.
Proof.
  split; [| split; [| split]].
  - apply (proj1 (models_on_little_data (Anomalies := nat)
                    (fun ds => if forallb (String.eqb "2025-05-23") ds
                               then Some (map (fun _ => 0) ds) else None)
                    (fun _ => []) 0 0 (fun _ => Py.Raised Py.ValueError)
                    (fun _ _ => Py.Raised Py.ValueError)
                    (fun _ => Py.Raised Py.ValueError) []) eq_refl).
  - apply (proj1 (proj2 (proj2 (models_on_little_data (Forecast := nat) (Anomalies := nat)
                    (fun ds => if forallb (String.eqb "2025-05-23") ds
                               then Some (map (fun _ => 0) ds) else None)
                    (fun _ => []) 0 0 (fun _ => Py.Raised Py.ValueError)
                    (fun _ _ => Py.Raised Py.ValueError)
                    (fun _ => Py.Raised Py.ValueError)
                    [Store.mkExpense "2025-05-23" 20 "Food" "lunch" "Lunch at cafe"
                       "TD Debit" "td debit"])))).
    + reflexivity.
    + discriminate.
  - apply (proj1 (proj2 (models_on_little_data (Anomalies := nat)
                    (fun ds => if forallb (String.eqb "2025-05-23") ds
                               then Some (map (fun _ => 0) ds) else None)
                    (fun _ => []) 0 0 (fun _ => Py.Returned 1)
                    (fun _ _ => Py.Raised Py.ValueError)
                    (fun _ => Py.Raised Py.ValueError)
                    [Store.mkExpense "2025-05-23" 20 "Food" "lunch" "Lunch at cafe"
                       "TD Debit" "td debit";
                     Store.mkExpense "yesterday" 25 "Food" "dinner"
                       "Dinner at restaurant" "TD Debit" "TD debit";
                     Store.mkExpense "2025-05-23" 5 "Transport" "bus" "Bus fare"
                       "Cash" "cash"]))).
    + discriminate.
    + reflexivity.
  - apply (proj2 (proj2 (proj2 (models_on_little_data (Timestamp := nat) (Forecast := nat)
                    (fun ds => if forallb (String.eqb "2025-05-23") ds
                               then Some (map (fun _ => 0) ds) else None)
                    (fun _ => []) 0 0 (fun _ => Py.Raised Py.ValueError)
                    (fun _ _ => Py.Raised Py.ValueError)
                    (fun _ => Py.Raised Py.ValueError) [])))).
    cbn. lia.
Defined.

(** X14. Reading back after an insert: [get_all_expenses] returns every
    record that was there, in order, followed by the new one; so the list
    is never empty after an insert and holds a record whose category is the
    label of the category pipeline, which is what the repository's test
    asserts for the category "Food". *)
Theorem get_all_expenses_after_add {Features : Type}
    (date : string) (amount : Q) (category description payment_method : string)
    (category_model : option (MultinomialNB Features))
    (category_vectorizer : option (TfidfVectorizer Features))
    (payment_model : option (MultinomialNB Features))
    (payment_vectorizer : option (TfidfVectorizer Features))
    (expenses : Store.Collection) :
  let after :=
    get_all_expenses
      (fst (add_expense_db date amount category description payment_method
              category_model category_vectorizer payment_model payment_vectorizer
              expenses)) in
  firstn (List.length expenses) after = get_all_expenses expenses
  /\ List.length after = S (List.length expenses)
  /\ 1 <= List.length after
  /\ existsb
       (fun e => String.eqb (Store.category e)
                   (fst (predict_and_refine_category description category
                           category_model category_vectorizer)))
       after = true
  /\ (get_general_category_from_similarity category <> "Miscellaneous" ->
      existsb
        (fun e => String.eqb (Store.category e)
                    (get_general_category_from_similarity category))
        after = true).
Proof.
  intros after. subst after. unfold get_all_expenses.
  rewrite add_expense_db_appends. cbn [fst].
  split; [rewrite firstn_app, Nat.sub_diag, firstn_all; apply app_nil_r |].
  split; [rewrite length_app; cbn; lia |].
  split; [rewrite length_app; cbn; lia |].
  split.
  - rewrite existsb_app. cbn [existsb Store.category].
    rewrite String.eqb_refl. apply orb_true_iff. right. reflexivity.
  - intros Hne. rewrite existsb_app. cbn [existsb Store.category].
    rewrite (PipelineFacts.category_first_stage _ _ _ _ Hne). cbn [fst].
    rewrite String.eqb_refl. apply orb_true_iff. right. reflexivity.
Qed.

(** The repository's test: an expense of category "Food" paid by "Card",
    added to any collection (here one that already holds a record). *)
Lemma get_all_expenses_after_add_witness :
  existsb (fun e => String.eqb (Store.category e) "Food")
    (get_all_expenses
       (fst (add_expense_db (Features := unit) "2025-05-20" 50 "Food" "Test" "Card"
               None None None None
               [Store.mkExpense "2025-05-23" 5 "Transport" "bus" "Bus fare"
                  "Cash" "cash"])))
  = true.
Proof.
  apply (proj2 (proj2 (proj2 (proj2
           (get_all_expenses_after_add (Features := unit) "2025-05-20" 50 "Food"
              "Test" "Card" None None None None
              [Store.mkExpense "2025-05-23" 5 "Transport" "bus" "Bus fare"
                 "Cash" "cash"]))))).
  vm_compute. discriminate.
Defined.
